(** * Search results grid: column planning (columns.tsx)

    A shallow embedding of
    [public/app/features/search/page/components/columns.tsx]:
    [generateColumns] and its helpers [getIconForKind],
    [makeDataSourceColumn], [makeTypeColumn] and [makeTagsColumn].

    Modelling conventions.
    - In [generateColumns] a JavaScript [number] holding a pixel width is
      an exact rational ([Q]) and the factor [0.2] the rational [2/10].
      The arithmetic on widths is also given on its own, over any number
      type ([planWidths]), and read on IEEE doubles ([binary64]), where
      it rounds as the code does.
    - [undefined] and [null] are both [None]; the code only tells them apart
      from proper values ([!= null], [??], [?.], truthiness).
    - Reading a property of [undefined] throws: formatters return a
      [Result], whose [TypeError] is that exception.
    - JSX is a tree of [Node]s.  An event handler is the list of the
      [Action]s it performs, in order; calling a caller-supplied callback
      [f] on [x] is the action [Call (f x)], with [Eff] the caller's type
      of effects.
    - JavaScript objects used as dictionaries ([meta.locationInfo],
      [config.panels]) are finite maps keyed by strings for their own
      properties; a property read [o[key]] also finds what a plain object
      inherits from [Object.prototype] ([getProperty]). *)

From Stdlib Require Import Ascii QArith Qminmax Lqa.
From Stdlib Require Uint63 Floats.SpecFloat Floats.FloatOps.
From Stdlib Require Import Floats.PrimFloat.
From stdpp Require Import gmap strings list.

Local Open Scope string_scope.
Local Open Scope list_scope.

(** ** Results of code that may throw *)

Inductive Result (A : Type) : Type :=
| Ok (a : A)
| TypeError.
Arguments Ok {A} a.
Arguments TypeError {A}.

Definition isOk {A} (r : Result A) : bool :=
  match r with Ok _ => true | TypeError => false end.

(** ** JavaScript primitives used by the module *)

(** Truthiness of a string: every string but the empty one. *)
Definition truthy (s : string) : bool := negb (String.eqb s "").

(** [v ?? d]. *)
Definition nullish {A} (v : option A) (d : A) : A :=
  match v with Some x => x | None => d end.

(** [v != null]. *)
Definition notNull {A} (v : option A) : bool :=
  match v with Some _ => true | None => false end.

(** [s.endsWith(suffix)]. *)
Definition endsWith (s suffix : string) : bool :=
  let n := String.length s in
  let k := String.length suffix in
  (k <=? n)%nat && String.eqb (String.substring (n - k) k s) suffix.

(** [s.split(sep)] for a separator of one character. *)
Fixpoint split (sep : Ascii.ascii) (s : string) : list string :=
  match s with
  | EmptyString => [EmptyString]
  | String c rest =>
      if Ascii.eqb c sep then EmptyString :: split sep rest
      else match split sep rest with
           | [] => [String c EmptyString]
           | part :: parts => String c part :: parts
           end
  end.

(** [parts.join(sep)], the inverse of [split]. *)
Fixpoint join (sep : Ascii.ascii) (parts : list string) : string :=
  match parts with
  | [] => EmptyString
  | [p] => p
  | p :: ps => p +:+ String sep (join sep ps)
  end.

(** [true] when the character occurs in the string. *)
Fixpoint contains (sep : Ascii.ascii) (s : string) : bool :=
  match s with
  | EmptyString => false
  | String c rest => Ascii.eqb c sep || contains sep rest
  end.

(** ** Data frames: [Field] and the view's field accessors *)

Record Field (T : Type) : Type := mkField { values : list (option T) }.
Arguments mkField {T} values.
Arguments values {T} f.

(** [field.values.get(i)]: [undefined] past the end of the vector. *)
Definition get {T} (f : Field T) (i : nat) : option T :=
  match values f !! i with
  | Some v => v
  | None => None
  end.

(** [field.values.get(i)] on a field that may itself be [undefined]. *)
Definition valuesGet {T} (f : option (Field T)) (i : nat) : Result (option T) :=
  match f with
  | Some fld => Ok (get fld i)
  | None => TypeError
  end.

(** [field?.values.get(i)]. *)
Definition valuesGetOpt {T} (f : option (Field T)) (i : nat) : option T :=
  match f with
  | Some fld => get fld i
  | None => None
  end.

(** What a column's [field] member refers to. *)
Inductive FieldRef : Type :=
| StringField (f : Field string)
| StringsField (f : Field (list string)).

(** [response.view.fields]: a property may be missing at run time. *)
Module Access.
Record t : Type := mk {
  uid : option (Field string);
  kind : option (Field string);
  name : option (Field string);
  panel_type : option (Field string);
  ds_uid : option (Field (list string));
  location : option (Field string);
  tags : option (Field (list string));
  url : option (Field string)
}.
End Access.

Record LocationInfo : Type := mkLocationInfo {
  li_kind : string;
  li_name : string;
  li_url : string
}.

(** [SearchResultMeta], the [custom] member of the frame's meta. *)
Record SearchResultMeta : Type := mkSearchResultMeta {
  locationInfo : option (gmap string LocationInfo)
}.

(** [response.view.dataFrame.meta?.custom]: [meta] and [custom] are both
    optional. *)
Record QueryResponse : Type := mkQueryResponse {
  view_fields : Access.t;
  view_dataFrame_meta : option (option SearchResultMeta)
}.

(** [response.view.dataFrame.meta?.custom as SearchResultMeta]. *)
Definition metaCustom (response : QueryResponse) : option SearchResultMeta :=
  match view_dataFrame_meta response with
  | Some custom => custom
  | None => None
  end.

(** [meta?.locationInfo]. *)
Definition metaLocationInfo (meta : option SearchResultMeta)
  : option (gmap string LocationInfo) :=
  match meta with
  | Some m => locationInfo m
  | None => None
  end.

(** ** Property reads on plain objects *)

(** What a read [o[key]] on a plain object finds when [key] is not an own
    property but one of the names of [Object.prototype]: a built-in
    function, whose [name] is kept, or, for [__proto__], the prototype
    object itself.  Neither has a [url], a [kind] or an [info]. *)
Inductive Inherited : Type :=
| InheritedFunction (fname : string)
| InheritedPrototype.

Definition objectPrototype (key : string) : option Inherited :=
  if String.eqb key "constructor" then Some (InheritedFunction "Object")
  else if String.eqb key "__proto__" then Some InheritedPrototype
  else if existsb (String.eqb key)
            ["hasOwnProperty"; "isPrototypeOf"; "propertyIsEnumerable";
             "toLocaleString"; "toString"; "valueOf"; "__defineGetter__";
             "__defineSetter__"; "__lookupGetter__"; "__lookupSetter__"]
       then Some (InheritedFunction key)
  else None.

(** The value of [o[key]]. *)
Inductive Property (V : Type) : Type :=
| OwnProperty (v : V)
| InheritedProperty (i : Inherited)
| NoProperty.
Arguments OwnProperty {V} v.
Arguments InheritedProperty {V} i.
Arguments NoProperty {V}.

Definition getProperty {V} (o : gmap string V) (key : string) : Property V :=
  match o !! key with
  | Some v => OwnProperty v
  | None =>
      match objectPrototype key with
      | Some i => InheritedProperty i
      | None => NoProperty
      end
  end.

(** [x.name] for an inherited value [x]. *)
Definition inheritedName (i : Inherited) : option string :=
  match i with
  | InheritedFunction fname => Some fname
  | InheritedPrototype => None
  end.

(** ** External registries *)

Record Logos : Type := mkLogos { small : option string }.

(** Data source settings; every link of
    [settings?.meta?.info?.logos?.small] may be missing. *)
Record DataSourcePluginInfo : Type := mkDSInfo { ds_logos : option Logos }.
Record DataSourcePluginMeta : Type := mkDSMeta { ds_info : option DataSourcePluginInfo }.
Record DataSourceInstanceSettings : Type := mkSettings {
  ds_settings_uid : string;
  ds_settings_type : string;
  ds_settings_name : string;
  ds_settings_meta : option DataSourcePluginMeta
}.

(** Panel plugins: [info.name], [info.info?.logos.small]. *)
Record PluginMetaInfo : Type := mkPluginMetaInfo { logos : Logos }.
Record PanelPluginMeta : Type := mkPanelPluginMeta {
  panel_name : option string;
  panel_info : option PluginMetaInfo
}.

(** ** Rendered output *)

Inductive Action (Eff : Type) : Type :=
| StopPropagation
| PreventDefault
| Alert (msg : string)
| Call (e : Eff).
Arguments StopPropagation {Eff}.
Arguments PreventDefault {Eff}.
Arguments Alert {Eff} msg.
Arguments Call {Eff} e.

Inductive Key : Type :=
| KeyString (s : string)
| KeyIndex (i : nat).

(** Props the grid engine hands to every cell formatter. *)
Record TableCellProps : Type := mkCellProps {
  row_index : nat;
  cellProps : list (string * string);
  cellStyle : string;
  userProps_href : string
}.

#[local] Set Warnings "-register-all".
Inductive Node (Eff : Type) : Type :=
| Null
| Text (s : string)
| Div (spread : list (string * string)) (className : list string)
      (children : list (Node Eff))
| Anchor (key : option Key) (spread : list (string * string))
         (href : option string)
         (className : list string) (children : list (Node Eff))
| Span (key : option Key) (className : list string)
       (onClick : option (list (Action Eff))) (children : list (Node Eff))
| Img (src : string) (w h : nat) (title : string) (className : string)
| Icon (iconName : string)
| Checkbox (disabled value : option bool) (onChange : list (Action Eff))
| SVG (src : string) (w h : nat) (title : string) (className : string)
| TagList (className : string) (tagNames : list string) (onClick : string -> Eff).
Arguments Null {Eff}.
Arguments Text {Eff} s.
Arguments Div {Eff} spread className children.
Arguments Anchor {Eff} key spread href className children.
Arguments Span {Eff} key className onClick children.
Arguments Img {Eff} src w h title className.
Arguments Icon {Eff} iconName.
Arguments Checkbox {Eff} disabled value onChange.
Arguments SVG {Eff} src w h title className.
Arguments TagList {Eff} className tagNames onClick.

(** [{v}] in JSX for [v : string | undefined]. *)
Definition textOf {Eff} (v : option string) : Node Eff :=
  match v with
  | Some s => Text s
  | None => Null
  end.

(** The [Cell] member: a formatter of this module or the grid's
    [DefaultCell], which shows the value of [accessor]. *)
Inductive CellRenderer (Eff : Type) : Type :=
| CustomCell (render : TableCellProps -> Result (Node Eff))
| DefaultCell.
Arguments CustomCell {Eff} render.
Arguments DefaultCell {Eff}.

Record TableColumn (Eff : Type) : Type := mkTableColumn {
  id : string;
  width : Q;
  Header : Node Eff;
  Cell : CellRenderer Eff;
  field : option FieldRef;
  accessor : option (nat -> Result (Node Eff))
}.
Arguments mkTableColumn {Eff}.
Arguments id {Eff} t.
Arguments width {Eff} t.
Arguments Header {Eff} t.
Arguments Cell {Eff} t.
Arguments field {Eff} t.
Arguments accessor {Eff} t.

(** The semantic style classes the module reads. *)
Record Styles : Type := mkStyles {
  checkbox : string;
  checkboxHeader : string;
  cellWrapper : string;
  typeIcon : string;
  typeText : string;
  datasourceItem : string;
  invalidDatasourceItem : string;
  locationItem : string;
  tagList : string
}.

(** ** The module's constants *)

Definition TYPE_COLUMN_WIDTH : Q := 250%Q.
Definition DATASOURCE_COLUMN_WIDTH : Q := 200%Q.
Definition LOCATION_COLUMN_WIDTH : Q := 200%Q.
Definition TAGS_COLUMN_WIDTH : Q := 300%Q.

(** ** [getIconForKind] *)

Definition getIconForKind (v : string) : string :=
  if String.eqb v "dashboard" then "apps"
  else if String.eqb v "folder" then "folder"
  else "question-circle".

Section Columns.

Context {Eff : Type}.

(** [getDataSourceSrv().getInstanceSettings] and [config.panels]. *)
Variable getInstanceSettings : string -> option DataSourceInstanceSettings.
Variable panels : gmap string PanelPluginMeta.

(** Caller-supplied callbacks. *)
Definition SelectionChecker : Type := option string -> option string -> bool.
Definition SelectionToggle : Type := option string -> option string -> Eff.

(** [settings?.meta?.info?.logos?.small]. *)
Definition settingsLogo (settings : option DataSourceInstanceSettings)
  : option string :=
  s ← settings; m ← ds_settings_meta s; i ← ds_info m; l ← ds_logos i; small l.

(** *** [makeDataSourceColumn] *)

(** The body of [dslist.map((v, i) => ...)]. *)
Definition datasourceItem_render (iconClass invalidDatasourceItemClass : string)
    (onDatasourceChange : option string -> Eff) (i : nat) (v : string)
  : Node Eff :=
  let settings := getInstanceSettings v in
  let icon := settingsLogo settings in
  match settings, icon with
  | Some st, Some src =>
      if truthy src then
        Span (Some (KeyIndex i)) []
             (Some [StopPropagation; PreventDefault;
                    Call (onDatasourceChange (Some (ds_settings_uid st)))])
             [Img src 14 14 (ds_settings_type st) iconClass;
              Text (ds_settings_name st)]
      else Span (Some (KeyIndex i)) [invalidDatasourceItemClass] None [Text v]
  | _, _ => Span (Some (KeyIndex i)) [invalidDatasourceItemClass] None [Text v]
  end.

Definition makeDataSourceColumn (fld : Field (list string)) (w : Q)
    (iconClass datasourceItemClass invalidDatasourceItemClass : string)
    (onDatasourceChange : option string -> Eff) : TableColumn Eff :=
  {| id := "column-datasource";
     field := Some (StringsField fld);
     Header := Text "Data source";
     Cell := CustomCell (fun p =>
       let dslist := get fld (row_index p) in
       match dslist with
       | None | Some [] => Ok Null
       | Some ds =>
           Ok (Div (cellProps p) [cellStyle p; datasourceItemClass]
                 (imap (datasourceItem_render iconClass
                          invalidDatasourceItemClass onDatasourceChange) ds))
       end);
     accessor := None;
     width := w |}.

(** *** [makeTypeColumn] *)

(** The icon and the text the [accessor] settles on: the two mutable
    locals [icon] and [txt] after the [if (kind)] block. *)
Definition typeIconText (kindField typeField : option (Field string))
    (i : nat) : Result (string * string) :=
  let kind := nullish (valuesGetOpt kindField i) "dashboard" in
  let icon := "public/img/icons/unicons/apps.svg" in
  let txt := "Dashboard" in
  if truthy kind then
    let txt := kind in
    if String.eqb txt "dashboard" then Ok (icon, "Dashboard")
    else if String.eqb txt "folder" then
      Ok ("public/img/icons/unicons/folder.svg", "Folder")
    else if String.eqb txt "panel" then
      let icon := "public/img/icons/unicons/graph-bar.svg" in
      match valuesGet typeField i with
      | TypeError => TypeError
      | Ok type =>
          match type with
          | Some ty =>
              if truthy ty then
                let txt := ty in
                match getProperty panels txt with
                | OwnProperty info =>
                    match panel_name info with
                    | Some nm =>
                        if truthy nm then
                          let v := x ← panel_info info; small (logos x) in
                          let icon :=
                            match v with
                            | Some src =>
                                if truthy src && endsWith src ".svg"
                                then src else icon
                            | None => icon
                            end in
                          Ok (icon, nm)
                        else Ok (icon, txt)
                    | None => Ok (icon, txt)
                    end
                | InheritedProperty info =>
                    match inheritedName info with
                    | Some nm => if truthy nm then Ok (icon, nm) else Ok (icon, txt)
                    | None => Ok (icon, txt)
                    end
                | NoProperty => Ok (icon, txt)
                end
              else Ok (icon, txt)
          | None => Ok (icon, txt)
          end
      end
    else Ok (icon, txt)
  else Ok (icon, txt).

Definition makeTypeColumn (kindField typeField : option (Field string))
    (w : Q) (styles : Styles) : TableColumn Eff :=
  {| Cell := DefaultCell;
     id := "column-type";
     field := StringField <$> (match kindField with
                               | Some k => Some k
                               | None => typeField
                               end);
     Header := Text "Type";
     accessor := Some (fun i =>
       match typeIconText kindField typeField i with
       | TypeError => TypeError
       | Ok (icon, txt) =>
           Ok (Div [] [typeText styles]
                 [SVG icon 14 14 txt (typeIcon styles); Text txt])
       end);
     width := w |}.

(** *** [makeTagsColumn] *)

Definition makeTagsColumn (fld : option (Field (list string))) (w : Q)
    (tagListClass : string) (onTagSelected : string -> Eff)
  : TableColumn Eff :=
  {| Cell := CustomCell (fun p =>
       match valuesGet fld (row_index p) with
       | TypeError => TypeError
       | Ok (Some tgs) =>
           Ok (Div (cellProps p) [cellStyle p]
                 [TagList tagListClass tgs onTagSelected])
       | Ok None => Ok Null
       end);
     id := "column-tags";
     field := StringsField <$> fld;
     Header := Text "Tags";
     accessor := None;
     width := w |}.

(** *** [generateColumns] *)

(** The [Cell] of the checkbox column. *)
Definition checkboxCell (uidField kindField : option (Field string))
    (selection : SelectionChecker) (selectionToggle : SelectionToggle)
    (styles : Styles) (p : TableCellProps) : Result (Node Eff) :=
  match valuesGet uidField (row_index p) with
  | TypeError => TypeError
  | Ok uid =>
      let kind := match kindField with
                  | Some kf => get kf (row_index p)
                  | None => Some "dashboard"
                  end in
      let selected := selection kind uid in
      let hasUID := notNull uid in
      Ok (Div (cellProps p) [cellStyle p]
            [Div [] [checkbox styles]
               [Checkbox (Some (negb hasUID)) (Some (selected && hasUID))
                  [Call (selectionToggle kind uid)]]])
  end.

(** The [Header] of the checkbox column. *)
Definition checkboxHeaderNode (styles : Styles) : Node Eff :=
  Div [] [checkboxHeader styles]
    [Checkbox None None
       [StopPropagation; PreventDefault; Alert "SELECT ALL!!!"]].

(** The [Cell] of the name column. *)
Definition nameCell (access : Access.t) (styles : Styles)
    (p : TableCellProps) : Result (Node Eff) :=
  match valuesGet (Access.name access) (row_index p) with
  | TypeError => TypeError
  | Ok nm =>
      Ok (Anchor None (cellProps p) (Some (userProps_href p))
            [cellStyle p; cellWrapper styles] [textOf nm])
  end.

(** The body of [parts.map((p) => ...)] in the location column. *)
Definition locationItem_render (info : gmap string LocationInfo)
    (styles : Styles) (p : string) : Node Eff :=
  match getProperty info p with
  | OwnProperty li =>
      Anchor (Some (KeyString p)) [] (Some (li_url li)) [locationItem styles]
        [Icon (getIconForKind (li_kind li)); Text " "; Text (li_name li)]
  | InheritedProperty i =>
      (* [i.url] and [i.kind] are [undefined]; [getIconForKind(undefined)]
         falls through to its last [return]. *)
      Anchor (Some (KeyString p)) [] None [locationItem styles]
        [Icon "question-circle"; Text " "; textOf (inheritedName i)]
  | NoProperty => Span (Some (KeyString p)) [] None [Text p]
  end.

(** The [Cell] of the location column. *)
Definition locationCell (access : Access.t)
    (info : gmap string LocationInfo) (styles : Styles)
    (p : TableCellProps) : Result (Node Eff) :=
  let parts :=
    split "/"%char (nullish (valuesGetOpt (Access.location access) (row_index p)) "") in
  Ok (Div (cellProps p) [cellStyle p; "padding-right: 10px;"]
        (map (locationItem_render info styles) parts)).

Definition generateColumns (response : QueryResponse) (availableWidth : Q)
    (selection : option SelectionChecker)
    (selectionToggle : option SelectionToggle)
    (styles : Styles) (onTagSelected : string -> Eff)
    (onDatasourceChange : option (option string -> Eff))
  : list (TableColumn Eff) :=
  let columns : list (TableColumn Eff) := [] in
  let access := view_fields response in
  let uidField := Access.uid access in
  let kindField := Access.kind access in
  let w : Q := 50%Q in
  let '(columns, availableWidth) :=
    match selection, selectionToggle with
    | Some sel, Some toggle =>
        let w : Q := 30%Q in
        (columns ++ [ {| id := "column-checkbox";
                         width := w;
                         Header := checkboxHeaderNode styles;
                         Cell := CustomCell
                                   (checkboxCell uidField kindField sel toggle styles);
                         field := StringField <$> uidField;
                         accessor := None |} ],
         (availableWidth - w)%Q)
    | _, _ => (columns, availableWidth)
    end in
  (* Name column *)
  let w := Qmax (availableWidth * 0.2)%Q 300%Q in
  let columns :=
    columns ++ [ {| Cell := CustomCell (nameCell access styles);
                    id := "column-name";
                    field := StringField <$> Access.name access;
                    Header := Text "Name";
                    accessor := None;
                    width := w |} ] in
  let availableWidth := (availableWidth - w)%Q in
  let w := TYPE_COLUMN_WIDTH in
  let columns :=
    columns ++ [ makeTypeColumn (Access.kind access) (Access.panel_type access)
                   w styles ] in
  let availableWidth := (availableWidth - w)%Q in
  (* Show datasources if we have any *)
  let '(columns, availableWidth) :=
    match Access.ds_uid access, onDatasourceChange with
    | Some ds_uid, Some onChange =>
        let w := DATASOURCE_COLUMN_WIDTH in
        (columns ++ [ makeDataSourceColumn ds_uid w (typeIcon styles)
                        (datasourceItem styles) (invalidDatasourceItem styles)
                        onChange ],
         (availableWidth - w)%Q)
    | _, _ => (columns, availableWidth)
    end in
  let w := Qmax (availableWidth - TAGS_COLUMN_WIDTH)%Q LOCATION_COLUMN_WIDTH in
  let meta := metaCustom response in
  let '(columns, availableWidth) :=
    match metaLocationInfo meta with
    | Some info =>
        (columns ++ [ {| Cell := CustomCell (locationCell access info styles);
                         id := "column-location";
                         field := StringField <$>
                                    (match Access.location access with
                                     | Some l => Some l
                                     | None => Access.url access
                                     end);
                         Header := Text "Location";
                         accessor := None;
                         width := w |} ],
         (availableWidth - w)%Q)
    | None => (columns, availableWidth)
    end in
  columns ++ [ makeTagsColumn (Access.tags access) availableWidth
                 (tagList styles) onTagSelected ].

End Columns.

(** ** The width arithmetic of [generateColumns], over any numbers

    The ids and widths [generateColumns] hands out depend on the supplied
    width and on which of its three gates are open, and on nothing else.
    [planWidths] is that computation (lines 34 to 151, the cells left
    out; the initial [width = 50] is overwritten before any use) over a
    number type with the operations the code applies.  [exactArith] reads
    it on rationals, as [generateColumns] above does; [binary64] reads it
    on IEEE doubles, as a JavaScript engine does. *)

Record Arith (N : Type) : Type := mkArith {
  checkboxWidth : N;            (* 30 *)
  nameShare : N;                (* 0.2 *)
  nameFloor : N;                (* 300 *)
  typeWidth : N;                (* TYPE_COLUMN_WIDTH *)
  datasourceWidthOf : N;        (* DATASOURCE_COLUMN_WIDTH *)
  locationFloor : N;            (* LOCATION_COLUMN_WIDTH *)
  tagsReserve : N;              (* TAGS_COLUMN_WIDTH *)
  minus : N -> N -> N;
  times : N -> N -> N;
  Math_max : N -> N -> N
}.
Arguments checkboxWidth {N} a.
Arguments nameShare {N} a.
Arguments nameFloor {N} a.
Arguments typeWidth {N} a.
Arguments datasourceWidthOf {N} a.
Arguments locationFloor {N} a.
Arguments tagsReserve {N} a.
Arguments minus {N} a.
Arguments times {N} a.
Arguments Math_max {N} a.

Definition planWidths {N} (ar : Arith N)
    (checkbox datasource location : bool) (availableWidth : N)
  : list (string * N) :=
  let columns : list (string * N) := [] in
  let '(columns, availableWidth) :=
    if checkbox then
      let w := checkboxWidth ar in
      (columns ++ [("column-checkbox", w)], minus ar availableWidth w)
    else (columns, availableWidth) in
  let w := Math_max ar (times ar availableWidth (nameShare ar)) (nameFloor ar) in
  let columns := columns ++ [("column-name", w)] in
  let availableWidth := minus ar availableWidth w in
  let w := typeWidth ar in
  let columns := columns ++ [("column-type", w)] in
  let availableWidth := minus ar availableWidth w in
  let '(columns, availableWidth) :=
    if datasource then
      let w := datasourceWidthOf ar in
      (columns ++ [("column-datasource", w)], minus ar availableWidth w)
    else (columns, availableWidth) in
  let w := Math_max ar (minus ar availableWidth (tagsReserve ar))
             (locationFloor ar) in
  let '(columns, availableWidth) :=
    if location then
      (columns ++ [("column-location", w)], minus ar availableWidth w)
    else (columns, availableWidth) in
  columns ++ [("column-tags", availableWidth)].

(** A gate of [generateColumns] that two optional values open together. *)
Definition gate {A B} (a : option A) (b : option B) : bool :=
  notNull a && notNull b.

Definition exactArith : Arith Q :=
  {| checkboxWidth := 30%Q;
     nameShare := 0.2%Q;
     nameFloor := 300%Q;
     typeWidth := TYPE_COLUMN_WIDTH;
     datasourceWidthOf := DATASOURCE_COLUMN_WIDTH;
     locationFloor := LOCATION_COLUMN_WIDTH;
     tagsReserve := TAGS_COLUMN_WIDTH;
     minus := Qminus;
     times := Qmult;
     Math_max := Qmax |}.










(** * Notions used to state the properties *)

(** Sum of the widths of a list of columns. *)
Definition totalWidth {Eff} (cols : list (TableColumn Eff)) : Q :=
  foldr Qplus 0%Q (map width cols).

(** The ids of a list of columns, in order. *)
Definition columnIds {Eff} (cols : list (TableColumn Eff)) : list string :=
  map id cols.

(** A cell formatter of a column never throws: its custom [Cell] on every
    cell, and its [accessor] on every row. *)
Definition neverThrows {Eff} (c : TableColumn Eff) : Prop :=
  (forall render, Cell c = CustomCell render -> forall p, isOk (render p) = true) /\
  (forall acc, accessor c = Some acc -> forall i, isOk (acc i) = true).

(** The budget after the checkbox step: 30 less when both the selection
    predicate and the toggle are supplied. *)
Definition afterSelection {A B} (availableWidth : Q)
    (selection : option A) (selectionToggle : option B) : Q :=
  match selection, selectionToggle with
  | Some _, Some _ => (availableWidth - 30)%Q
  | _, _ => availableWidth
  end.

(** Width of the name column for a remaining budget. *)
Definition nameWidth (remaining : Q) : Q := Qmax (remaining * 0.2)%Q 300%Q.

(** The budget left when the location step is reached: the supplied width
    less the checkbox, name, type and data source columns. *)
Definition remainingAtLocation {A B C D} (availableWidth : Q)
    (selection : option A) (selectionToggle : option B)
    (ds_uid : option C) (onDatasourceChange : option D) : Q :=
  let remaining := afterSelection availableWidth selection selectionToggle in
  let remaining := (remaining - nameWidth remaining - 250)%Q in
  match ds_uid, onDatasourceChange with
  | Some _, Some _ => (remaining - 200)%Q
  | _, _ => remaining
  end.

(** An event handler suppresses the event before every callback it calls:
    each [Call] comes after a [StopPropagation] and a [PreventDefault]. *)
Fixpoint suppressesFrom {Eff} (stopped prevented : bool)
    (handler : list (Action Eff)) : bool :=
  match handler with
  | [] => true
  | StopPropagation :: rest => suppressesFrom true prevented rest
  | PreventDefault :: rest => suppressesFrom stopped true rest
  | Alert _ :: rest => suppressesFrom stopped prevented rest
  | Call _ :: rest => stopped && prevented && suppressesFrom stopped prevented rest
  end.

Definition suppressesBeforeCalls {Eff} (handler : list (Action Eff)) : bool :=
  suppressesFrom false false handler.

(** The event handlers attached anywhere in a rendered tree.  The
    [onClick] of a [TagList] is the caller's callback itself, handed to
    that component; it is not a handler of this module. *)
Fixpoint handlers {Eff} (n : Node Eff) : list (list (Action Eff)) :=
  match n with
  | Div _ _ children => flat_map handlers children
  | Anchor _ _ _ _ children => flat_map handlers children
  | Span _ _ onClick children =>
      match onClick with Some h => [h] | None => [] end
      ++ flat_map handlers children
  | Checkbox _ _ onChange => [onChange]
  | Null | Text _ | Img _ _ _ _ _ | Icon _ | SVG _ _ _ _ _ | TagList _ _ _ => []
  end.

(** A key that a property read resolves as a lookup among the own
    properties would: it is an own property, or it is not a name of
    [Object.prototype] either. *)
Definition ownOrAbsent {V} (o : gmap string V) (key : string) : Prop :=
  is_Some (o !! key) \/ objectPrototype key = None.

(** ** The type column as the specification words it *)

(** Icon and label by kind, reading a panel's label off its [panel_type]
    whatever that string is. *)
Definition typeIconText_claimed (panels : gmap string PanelPluginMeta)
    (kind : option string) (panel_type : string) : string * string :=
  let apps := "public/img/icons/unicons/apps.svg" in
  let graph := "public/img/icons/unicons/graph-bar.svg" in
  match kind with
  | None => (apps, "Dashboard")
  | Some k =>
      if String.eqb k "" then (apps, "Dashboard")
      else if String.eqb k "dashboard" then (apps, "Dashboard")
      else if String.eqb k "folder" then
        ("public/img/icons/unicons/folder.svg", "Folder")
      else if String.eqb k "panel" then
        match panels !! panel_type with
        | Some {| panel_name := Some displayName; panel_info := info |} =>
            if truthy displayName then
              match info with
              | Some {| logos := {| small := Some logo |} |} =>
                  if endsWith logo ".svg" then (logo, displayName)
                  else (graph, displayName)
              | _ => (graph, displayName)
              end
            else (graph, panel_type)
        | _ => (graph, panel_type)
        end
      else (apps, k)
  end.

(** The same, except that a panel row whose [panel_type] is absent or
    empty keeps the kind string as its label and is not looked up in the
    registry. *)
Definition typeIconText_amended (panels : gmap string PanelPluginMeta)
    (kind panel_type : option string) : string * string :=
  let ty := nullish panel_type "" in
  if String.eqb (nullish kind "") "panel" && negb (truthy ty)
  then ("public/img/icons/unicons/graph-bar.svg", "panel")
  else typeIconText_claimed panels kind ty.

(** ** The location and data source cells as the specification words them *)

(** One path segment: a link with the icon of its kind and its name when
    the segment is a key of [locationInfo], the raw segment otherwise. *)
Definition segment_spec {Eff} (info : gmap string LocationInfo)
    (styles : Styles) (segment : string) : Node Eff :=
  match info !! segment with
  | Some li =>
      let icon := if String.eqb (li_kind li) "dashboard" then "apps"
                  else if String.eqb (li_kind li) "folder" then "folder"
                  else "question-circle" in
      Anchor (Some (KeyString segment)) [] (Some (li_url li))
        [locationItem styles]
        [Icon icon; Text " "; Text (li_name li)]
  | None => Span (Some (KeyString segment)) [] None [Text segment]
  end.

(** The small logo of a data source, when its settings resolve and expose
    a (non-empty) one. *)
Definition resolvedLogo
    (getInstanceSettings : string -> option DataSourceInstanceSettings)
    (v : string) : option (DataSourceInstanceSettings * string) :=
  match getInstanceSettings v with
  | Some st =>
      match ds_settings_meta st with
      | Some {| ds_info := Some {| ds_logos := Some {| small := Some logo |} |} |} =>
          if String.eqb logo "" then None else Some (st, logo)
      | _ => None
      end
  | None => None
  end.

(** One data source identifier: a clickable chip, or the raw identifier
    in the invalid style. *)
Definition datasource_spec {Eff}
    (getInstanceSettings : string -> option DataSourceInstanceSettings)
    (styles : Styles) (onDatasourceChange : option string -> Eff)
    (i : nat) (v : string) : Node Eff :=
  match resolvedLogo getInstanceSettings v with
  | Some (st, logo) =>
      Span (Some (KeyIndex i)) []
        (Some [StopPropagation; PreventDefault;
               Call (onDatasourceChange (Some (ds_settings_uid st)))])
        [Img logo 14 14 (ds_settings_type st) (typeIcon styles);
         Text (ds_settings_name st)]
  | None =>
      Span (Some (KeyIndex i)) [invalidDatasourceItem styles] None [Text v]
  end.

(** * Sample inputs *)

(** What the sample caller's callbacks do. *)
Inductive SampleEffect : Type :=
| ToggleSelection (kind uid : option string)
| SelectTag (tag : string)
| ChangeDatasource (uid : option string).

Definition sampleStyles : Styles :=
  {| checkbox := "checkbox";
     checkboxHeader := "checkboxHeader";
     cellWrapper := "cellWrapper";
     typeIcon := "typeIcon";
     typeText := "typeText";
     datasourceItem := "datasourceItem";
     invalidDatasourceItem := "invalidDatasourceItem";
     locationItem := "locationItem";
     tagList := "tagList" |}.

(** A registry that knows [ds1] (with a logo) and nothing else. *)
Definition sampleSettings (v : string) : option DataSourceInstanceSettings :=
  if String.eqb v "ds1" then
    Some {| ds_settings_uid := "uid-ds1";
            ds_settings_type := "prometheus";
            ds_settings_name := "Prometheus";
            ds_settings_meta :=
              Some {| ds_info :=
                Some {| ds_logos := Some {| small := Some "img/prometheus.svg" |} |} |} |}
  else None.

Definition samplePanels : gmap string PanelPluginMeta :=
  {[ "stat" := {| panel_name := Some "Stat";
                  panel_info := Some {| logos := {| small := Some "img/stat.svg" |} |} |} ]}.

Definition sampleLocationInfo : gmap string LocationInfo :=
  {[ "a" := {| li_kind := "folder"; li_name := "A"; li_url := "/a" |} ]}.

(** Three rows: a dashboard, a folder and a panel without uid. *)
Definition sampleAccess : Access.t :=
  {| Access.uid := Some (mkField [Some "u1"; Some "u2"; None]);
     Access.kind := Some (mkField [Some "dashboard"; Some "folder"; Some "panel"]);
     Access.name := Some (mkField [Some "Home"; Some "Ops"; Some "CPU"]);
     Access.panel_type := Some (mkField [None; None; Some "timeseries"]);
     Access.ds_uid := Some (mkField [Some ["ds1"; "ds2"]; None; Some []]);
     Access.location := Some (mkField [Some "a/b"; Some ""; None]);
     Access.tags := Some (mkField [Some ["prod"; "prod"]; None; Some []]);
     Access.url := Some (mkField [Some "/d/u1"; Some "/f/u2"; Some "/d/u1?p=3"]) |}.

Definition sampleResponse : QueryResponse :=
  {| view_fields := sampleAccess;
     view_dataFrame_meta :=
       Some (Some {| locationInfo := Some sampleLocationInfo |}) |}.

(** The same rows in a frame without kind field, tags field and meta. *)
Definition bareAccess : Access.t :=
  {| Access.uid := Access.uid sampleAccess;
     Access.kind := None;
     Access.name := Access.name sampleAccess;
     Access.panel_type := None;
     Access.ds_uid := None;
     Access.location := None;
     Access.tags := None;
     Access.url := Access.url sampleAccess |}.

Definition bareResponse : QueryResponse :=
  {| view_fields := bareAccess; view_dataFrame_meta := None |}.

(** A panel row whose [panel_type] is the empty string. *)
Definition untypedPanelAccess : Access.t :=
  {| Access.uid := Some (mkField [None]);
     Access.kind := Some (mkField [Some "panel"]);
     Access.name := Some (mkField [Some "CPU"]);
     Access.panel_type := Some (mkField [Some ""]);
     Access.ds_uid := None;
     Access.location := None;
     Access.tags := Some (mkField [None]);
     Access.url := None |}.

Definition sampleSelection : option string -> option string -> bool :=
  fun kind uid => match uid with Some "u1" => true | _ => false end.

Definition sampleCell (i : nat) : TableCellProps :=
  {| row_index := i;
     cellProps := [("role", "cell")];
     cellStyle := "cell";
     userProps_href := "/d/u1" |}.

(** A planning call with every optional column, and one with none. *)
Definition sampleColumns (availableWidth : Q) : list (TableColumn SampleEffect) :=
  generateColumns sampleSettings samplePanels sampleResponse availableWidth
    (Some sampleSelection) (Some ToggleSelection) sampleStyles SelectTag
    (Some ChangeDatasource).

Definition bareColumns (availableWidth : Q) : list (TableColumn SampleEffect) :=
  generateColumns sampleSettings samplePanels bareResponse availableWidth
    None None sampleStyles SelectTag None.

(** A dashboard filed under the folder "a" and, below it, a folder whose
    uid is "constructor", which the frame's [locationInfo] does not
    list. *)
Definition inheritedAccess : Access.t :=
  {| Access.uid := Some (mkField [Some "u9"]);
     Access.kind := Some (mkField [Some "dashboard"]);
     Access.name := Some (mkField [Some "Builds"]);
     Access.panel_type := Some (mkField [None]);
     Access.ds_uid := None;
     Access.location := Some (mkField [Some "a/constructor"]);
     Access.tags := Some (mkField [None]);
     Access.url := Some (mkField [Some "/d/u9"]) |}.

Definition inheritedResponse : QueryResponse :=
  {| view_fields := inheritedAccess;
     view_dataFrame_meta :=
       Some (Some {| locationInfo := Some sampleLocationInfo |}) |}.

Definition inheritedColumns : list (TableColumn SampleEffect) :=
  generateColumns sampleSettings samplePanels inheritedResponse 2000
    None None sampleStyles SelectTag None.

(** ** Notions for the layout of the plan *)

(** The ids a plan is expected to carry, in order, given which of its
    gates are open. *)
Definition expectedIds {A B C D E} (selection : option A)
    (selectionToggle : option B) (ds_uid : option C)
    (onDatasourceChange : option D) (info : option E) : list string :=
  match selection, selectionToggle with
  | Some _, Some _ => ["column-checkbox"]
  | _, _ => []
  end
  ++ ["column-name"; "column-type"]
  ++ match ds_uid, onDatasourceChange with
     | Some _, Some _ => ["column-datasource"]
     | _, _ => []
     end
  ++ match info with
     | Some _ => ["column-location"]
     | None => []
     end
  ++ ["column-tags"].

(** Number of occurrences of a character in a string. *)
Fixpoint countChar (sep : ascii) (s : string) : nat :=
  match s with
  | EmptyString => 0
  | String c rest => (if Ascii.eqb c sep then 1 else 0) + countChar sep rest
  end.

(** The React key of an element. *)
Definition keyOf {Eff} (n : Node Eff) : option Key :=
  match n with
  | Anchor key _ _ _ _ => key
  | Span key _ _ _ => key
  | _ => None
  end.

(** The rows of the sample frame without their [panel_type] field, and a
    registry that renames every panel type. *)
Definition untypedAccess : Access.t :=
  {| Access.uid := Access.uid sampleAccess;
     Access.kind := Access.kind sampleAccess;
     Access.name := Access.name sampleAccess;
     Access.panel_type := None;
     Access.ds_uid := Access.ds_uid sampleAccess;
     Access.location := Access.location sampleAccess;
     Access.tags := Access.tags sampleAccess;
     Access.url := Access.url sampleAccess |}.

Definition otherPanels : gmap string PanelPluginMeta :=
  {[ "timeseries" := {| panel_name := Some "Time series";
                        panel_info := None |} ]}.

(** * Properties *)

(** ** Width budget *)

Lemma totalWidth_app {Eff} (xs ys : list (TableColumn Eff)) :
  (totalWidth (xs ++ ys) == totalWidth xs + totalWidth ys)%Q.
Proof.
  unfold totalWidth.
  induction xs as [|x xs IH]; simpl.
  - ring.
  - rewrite IH. ring.
Qed.

Lemma totalWidth_snoc {Eff} (xs : list (TableColumn Eff)) (c : TableColumn Eff) :
  (totalWidth (xs ++ [c]) == totalWidth xs + width c)%Q.
Proof.
  rewrite totalWidth_app. unfold totalWidth. simpl. ring.
Qed.

Lemma totalWidth_nil {Eff} : (totalWidth (@nil (TableColumn Eff)) == 0)%Q.
Proof. reflexivity. Qed.

Lemma Qmax_floor_nonneg (a b : Q) : (0 <= b)%Q -> (0 <= Qmax a b)%Q.
Proof.
  intros Hb. apply Qle_trans with b; [exact Hb | apply Q.le_max_r].
Qed.

(** Case analysis on the three gates of [generateColumns]: the checkbox
    column, the data source column and the location column. *)
Ltac plan_cases response selection selectionToggle onDatasourceChange :=
  unfold generateColumns;
  destruct selection as [?sel|], selectionToggle as [?toggle|],
    (Access.ds_uid (view_fields response)) as [?ds|],
    onDatasourceChange as [?onChange|],
    (metaLocationInfo (metaCustom response)) as [?info|];
  cbv zeta.

Ltac width_simpl :=
  rewrite ?totalWidth_snoc, ?totalWidth_nil;
  cbn [width makeTagsColumn makeTypeColumn makeDataSourceColumn].

Section Budget.

Context {Eff : Type}.
Variable getInstanceSettings : string -> option DataSourceInstanceSettings.
Variable panels : gmap string PanelPluginMeta.
Variable response : QueryResponse.
Variable availableWidth : Q.
Variable selection : option SelectionChecker.
Variable selectionToggle : option (@SelectionToggle Eff).
Variable styles : Styles.
Variable onTagSelected : string -> Eff.
Variable onDatasourceChange : option (option string -> Eff).

(** In exact arithmetic the tags column takes the residual budget, so
    the widths add up to the supplied width exactly. *)
Lemma generateColumns_totalWidth :
  (totalWidth (generateColumns getInstanceSettings panels response
                 availableWidth selection selectionToggle styles
                 onTagSelected onDatasourceChange)
   == availableWidth)%Q.
Proof.
  plan_cases response selection selectionToggle onDatasourceChange;
    width_simpl; ring.
Qed.

(** C2, as amended: every column before the tags column has a width of at
    least 0, and the tags column, which is last, has the residual width
    [availableWidth] less the widths of the columns before it, whatever
    its sign. *)
Theorem generateColumns_widths_nonnegative_before_tags :
  exists others tagsColumn,
    generateColumns getInstanceSettings panels response availableWidth
      selection selectionToggle styles onTagSelected onDatasourceChange
    = others ++ [tagsColumn]
    /\ id tagsColumn = "column-tags"
    /\ Forall (fun c => (0 <= width c)%Q) others
    /\ (width tagsColumn == availableWidth - totalWidth others)%Q.
Proof.
  plan_cases response selection selectionToggle onDatasourceChange;
    (eexists _, _; split; [reflexivity|]; split; [reflexivity|]; split;
     [ cbn [app]; repeat constructor; cbn [width makeTypeColumn makeDataSourceColumn];
       try (apply Qmax_floor_nonneg); try discriminate
     | width_simpl; ring ]).
Qed.

End Budget.

(** C2 fails as stated: with no width to share and no optional column the
    tags column is 550 pixels below zero. *)
Lemma tags_width_negative_at_zero :
  map (fun c => Qred (width c)) (bareColumns 0) = [300; 250; -550]%Q
  /\ ~ Forall (fun c => (0 <= width c)%Q) (bareColumns 0).
Proof.
  split; [reflexivity|].
  intros H. apply Forall_app in H as [_ H].
  apply Forall_cons in H as [H _]. revert H. vm_compute. intros H. apply H. reflexivity.
Qed.

(** ** The budget on doubles *)

(** [planWidths] on rationals is the width arithmetic of the embedding of
    [generateColumns]. *)
Lemma generateColumns_planWidths {Eff}
    (getInstanceSettings : string -> option DataSourceInstanceSettings)
    (panels : gmap string PanelPluginMeta) (response : QueryResponse)
    (availableWidth : Q) (selection : option SelectionChecker)
    (selectionToggle : option (@SelectionToggle Eff)) (styles : Styles)
    (onTagSelected : string -> Eff)
    (onDatasourceChange : option (option string -> Eff)) :
  map (fun c => (id c, width c))
    (generateColumns getInstanceSettings panels response availableWidth
       selection selectionToggle styles onTagSelected onDatasourceChange)
  = planWidths exactArith
      (gate selection selectionToggle)
      (gate (Access.ds_uid (view_fields response)) onDatasourceChange)
      (notNull (metaLocationInfo (metaCustom response)))
      availableWidth.
Proof.
  plan_cases response selection selectionToggle onDatasourceChange;
    reflexivity.
Qed.









(** ** The checkbox column *)

Ltac not_in_ids :=
  let H := fresh "H" in
  intros H; cbn in H;
  repeat (apply elem_of_cons in H as [H|H]; [discriminate H|]);
  inversion H.

Section Selection.

Context {Eff : Type}.
Variable getInstanceSettings : string -> option DataSourceInstanceSettings.
Variable panels : gmap string PanelPluginMeta.
Variable response : QueryResponse.
Variable availableWidth : Q.
Variable selection : option SelectionChecker.
Variable selectionToggle : option (@SelectionToggle Eff).
Variable styles : Styles.
Variable onTagSelected : string -> Eff.
Variable onDatasourceChange : option (option string -> Eff).

(** C3: without the selection predicate or without the toggle there is no
    checkbox column; with both it is the first column, 30 wide, and its
    checkbox is disabled exactly on the rows whose uid is absent. *)
Theorem selection_column_spec :
  let cols := generateColumns getInstanceSettings panels response
                availableWidth selection selectionToggle styles
                onTagSelected onDatasourceChange in
  ((selection = None \/ selectionToggle = None) ->
     "column-checkbox" ∉ columnIds cols)
  /\ (forall sel toggle,
        selection = Some sel -> selectionToggle = Some toggle ->
        exists c rest render,
          cols = c :: rest
          /\ id c = "column-checkbox"
          /\ width c = 30%Q
          /\ Cell c = CustomCell render
          /\ forall uidField p,
               Access.uid (view_fields response) = Some uidField ->
               exists disabled value onChange,
                 render p =
                   Ok (Div (cellProps p) [cellStyle p]
                         [Div [] [checkbox styles]
                            [Checkbox (Some disabled) value onChange]])
                 /\ (disabled = true <-> get uidField (row_index p) = None)).
Proof.
  intros cols. subst cols. split.
  - intros Hnone.
    plan_cases response selection selectionToggle onDatasourceChange;
      try (destruct Hnone; discriminate); not_in_ids.
  - intros s t -> ->.
    unfold generateColumns.
    destruct (Access.ds_uid (view_fields response)) as [ds|],
      onDatasourceChange as [onChange|],
      (metaLocationInfo (metaCustom response)) as [info|]; cbv zeta;
      (eexists _, _, _; cbn [app];
       split; [reflexivity|]; split; [reflexivity|]; split; [reflexivity|];
       split; [reflexivity|];
       intros uidField p Huid; unfold checkboxCell; rewrite Huid; cbn [valuesGet];
       eexists _, _, _; split; [reflexivity|];
       destruct (get uidField (row_index p)); cbn; split; congruence).
Qed.

End Selection.

(** C3 on the sample calls: the planning call with selection starts with
    the 30 pixel checkbox column, whose checkbox is disabled on the panel
    row (no uid); the call without selection has no such column. *)
Lemma selection_column_witness :
  ("column-checkbox" ∉ columnIds (bareColumns 1000))
  /\ exists c rest render,
       sampleColumns 1000 = c :: rest
       /\ id c = "column-checkbox" /\ width c = 30%Q
       /\ Cell c = CustomCell render
       /\ (exists value onChange,
             render (sampleCell 2) =
               Ok (Div (cellProps (sampleCell 2)) [cellStyle (sampleCell 2)]
                     [Div [] [checkbox sampleStyles]
                        [Checkbox (Some true) value onChange]])).
Proof.
  split.
  - apply (selection_column_spec sampleSettings samplePanels bareResponse 1000
             None None sampleStyles SelectTag None).
    left. reflexivity.
  - destruct (selection_column_spec sampleSettings samplePanels sampleResponse
                1000 (Some sampleSelection) (Some ToggleSelection) sampleStyles
                SelectTag (Some ChangeDatasource)) as [_ H].
    destruct (H sampleSelection ToggleSelection eq_refl eq_refl)
      as (c & rest & render & Hcols & Hid & Hw & Hcell & Hrows).
    exists c, rest, render. repeat (split; [assumption|]).
    destruct (Hrows _ (sampleCell 2) eq_refl)
      as (disabled & value & onChange & Hrender & Hdis).
    exists value, onChange. rewrite Hrender.
    replace disabled with true; [reflexivity|].
    symmetry. apply Hdis. reflexivity.
Defined.

(** ** The type column *)

Lemma endsWith_svg_truthy (s : string) :
  endsWith s ".svg" = true -> truthy s = true.
Proof.
  destruct s as [|c s]; [discriminate | reflexivity].
Qed.

(** On such a key a property read is a lookup among the own properties. *)
Lemma getProperty_ownOrAbsent {V} (o : gmap string V) (key : string) :
  ownOrAbsent o key ->
  getProperty o key
  = match o !! key with Some v => OwnProperty v | None => NoProperty end.
Proof.
  unfold getProperty. intros [[v Hv]|Hnone].
  - rewrite Hv. reflexivity.
  - rewrite Hnone. reflexivity.
Qed.

(** The panel branch of the accessor, for a non-empty [panel_type]. *)
Lemma typeIconText_panel (panels : gmap string PanelPluginMeta)
    (kindField : option (Field string)) (typeField : Field string)
    (i : nat) (ty : string) :
  valuesGetOpt kindField i = Some "panel" ->
  get typeField i = Some ty ->
  truthy ty = true ->
  ownOrAbsent panels ty ->
  typeIconText panels kindField (Some typeField) i
  = Ok (typeIconText_claimed panels (Some "panel") ty).
Proof.
  intros Hkind Hty Htruthy Hown.
  unfold typeIconText, typeIconText_claimed.
  rewrite Hkind. cbn [nullish valuesGet]. rewrite Hty, Htruthy.
  change (truthy "panel") with true.
  change (String.eqb "panel" "dashboard") with false.
  change (String.eqb "panel" "folder") with false.
  change (String.eqb "panel" "panel") with true.
  change (String.eqb "panel" "") with false.
  cbv iota. rewrite (getProperty_ownOrAbsent panels ty Hown).
  destruct (panels !! ty) as [[[nm|] info]|]; cbn [panel_name panel_info]; try reflexivity.
  destruct (truthy nm); [|reflexivity].
  destruct info as [[[[logo|]]]|]; cbn; try reflexivity.
  destruct (endsWith logo ".svg") eqn:Hsvg.
  - rewrite (endsWith_svg_truthy _ Hsvg). reflexivity.
  - rewrite andb_false_r. reflexivity.
Qed.

(** C4, as amended: the accessor of the type column resolves icon and
    label by kind as the specification lists them, except that a panel row
    whose [panel_type] is absent or empty is labelled with its kind,
    "panel"; this on every panel row for which the [panel_type] field
    exists and whose [panel_type] the registry holds as an own entry or
    [Object.prototype] does not know either, and on every other row. *)
Theorem typeIconText_resolution (panels : gmap string PanelPluginMeta)
    (kindField typeField : option (Field string)) (i : nat) :
  (valuesGetOpt kindField i = Some "panel" -> typeField <> None) ->
  (forall ty,
     valuesGetOpt kindField i = Some "panel" ->
     valuesGetOpt typeField i = Some ty -> ownOrAbsent panels ty) ->
  typeIconText panels kindField typeField i
  = Ok (typeIconText_amended panels (valuesGetOpt kindField i)
          (valuesGetOpt typeField i)).
Proof.
  intros Hfield Hown.
  destruct (valuesGetOpt kindField i) as [k|] eqn:Hkind.
  - destruct (String.eqb_spec k "panel") as [->|Hnot].
    + destruct typeField as [tf|]; [|exfalso; apply Hfield; reflexivity].
      cbn [valuesGetOpt] in *.
      destruct (get tf i) as [ty|] eqn:Hty.
      * destruct (truthy ty) eqn:Htruthy.
        -- rewrite (typeIconText_panel panels kindField tf i ty Hkind Hty Htruthy
                      (Hown ty eq_refl eq_refl)).
           unfold typeIconText_amended. cbn [nullish].
           rewrite Htruthy. reflexivity.
        -- unfold typeIconText, typeIconText_amended.
           rewrite Hkind. cbn [nullish valuesGet]. rewrite Hty, Htruthy.
           reflexivity.
      * unfold typeIconText, typeIconText_amended.
        rewrite Hkind. cbn [nullish valuesGet]. rewrite Hty. reflexivity.
    + apply String.eqb_neq in Hnot.
      unfold typeIconText, typeIconText_amended, typeIconText_claimed.
      rewrite Hkind. cbn [nullish]. rewrite Hnot. cbn [andb].
      unfold truthy.
      destruct (String.eqb k ""); cbn [negb]; [reflexivity|].
      destruct (String.eqb k "dashboard"); [reflexivity|].
      destruct (String.eqb k "folder"); reflexivity.
  - unfold typeIconText, typeIconText_amended.
    rewrite Hkind. reflexivity.
Qed.

(** The specification's example: a panel of type "timeseries" unknown to
    the registry is labelled "timeseries" under the graph icon. *)
Lemma typeIconText_resolution_witness :
  typeIconText samplePanels (Access.kind sampleAccess)
    (Access.panel_type sampleAccess) 2
  = Ok ("public/img/icons/unicons/graph-bar.svg", "timeseries").
Proof.
  rewrite (typeIconText_resolution samplePanels (Access.kind sampleAccess)
             (Access.panel_type sampleAccess) 2).
  - reflexivity.
  - intros _. discriminate.
  - intros ty _ Hty. injection Hty as <-. right. reflexivity.
Defined.

(** C4 fails as stated: a panel row whose [panel_type] is the empty string
    is labelled "panel", not with that (empty) string. *)
Lemma untyped_panel_keeps_kind_label :
  valuesGetOpt (Access.panel_type untypedPanelAccess) 0 = Some ""
  /\ typeIconText samplePanels (Access.kind untypedPanelAccess)
       (Access.panel_type untypedPanelAccess) 0
     = Ok ("public/img/icons/unicons/graph-bar.svg", "panel")
  /\ typeIconText samplePanels (Access.kind untypedPanelAccess)
       (Access.panel_type untypedPanelAccess) 0
     <> Ok (typeIconText_claimed samplePanels (Some "panel") "").
Proof.
  split; [reflexivity|]. split; [reflexivity|].
  vm_compute. discriminate.
Qed.

(** A panel type that is a name of [Object.prototype] and not an own entry
    of the registry is read off the prototype: the type "constructor" is
    labelled "Object". *)
Lemma inherited_panel_type_label :
  typeIconText samplePanels (Some (mkField [Some "panel"]))
    (Some (mkField [Some "constructor"])) 0
  = Ok ("public/img/icons/unicons/graph-bar.svg", "Object").
Proof. reflexivity. Qed.

(** ** The data source and location columns: when, and how wide *)

Ltac in_ids := cbn; repeat first [apply list_elem_of_here | apply list_elem_of_further].

Ltac pick_column Hc Hid :=
  cbn [app] in Hc;
  repeat (apply elem_of_cons in Hc as [->|Hc]; [try discriminate Hid|]);
  try (apply elem_of_nil in Hc; destruct Hc).

Section OptionalColumns.

Context {Eff : Type}.
Variable getInstanceSettings : string -> option DataSourceInstanceSettings.
Variable panels : gmap string PanelPluginMeta.
Variable response : QueryResponse.
Variable availableWidth : Q.
Variable selection : option SelectionChecker.
Variable selectionToggle : option (@SelectionToggle Eff).
Variable styles : Styles.
Variable onTagSelected : string -> Eff.
Variable onDatasourceChange : option (option string -> Eff).

(** C5: the location column is planned exactly when the frame's meta
    carries a [locationInfo], and is then max(remaining - 300, 200) wide;
    the data source column is planned exactly when the view has a [ds_uid]
    field and a data source callback was supplied, and is then 200 wide. *)
Theorem optional_columns_spec :
  let cols := generateColumns getInstanceSettings panels response
                availableWidth selection selectionToggle styles
                onTagSelected onDatasourceChange in
  let ds_uid := Access.ds_uid (view_fields response) in
  ("column-location" ∈ columnIds cols
     <-> is_Some (metaLocationInfo (metaCustom response)))
  /\ (forall c, c ∈ cols -> id c = "column-location" ->
        width c
        = Qmax (remainingAtLocation availableWidth selection selectionToggle
                  ds_uid onDatasourceChange - 300)%Q 200%Q)
  /\ ("column-datasource" ∈ columnIds cols
        <-> is_Some ds_uid /\ is_Some onDatasourceChange)
  /\ (forall c, c ∈ cols -> id c = "column-datasource" -> width c = 200%Q).
Proof.
  intros cols ds_uid. subst cols ds_uid.
  plan_cases response selection selectionToggle onDatasourceChange;
    (split; [|split; [|split]]);
    try (intros c Hc Hid; pick_column Hc Hid; reflexivity);
    (split;
     [ first [ intros _; solve [eauto] | not_in_ids ]
     | first [ intros _; solve [in_ids]
             | intros [[? Hx] [? Hy]]; discriminate
             | intros [? Hx]; discriminate ] ]).
Qed.

End OptionalColumns.

(** C5 on the sample calls: with every gate open and 2000 pixels the
    location column is 826 wide and the data source column 200; the bare
    frame gets neither. *)
Lemma optional_columns_witness :
  (exists c, c ∈ sampleColumns 2000 /\ id c = "column-location"
             /\ Qred (width c) = 826%Q)
  /\ (exists c, c ∈ sampleColumns 2000 /\ id c = "column-datasource"
                /\ width c = 200%Q)
  /\ ("column-location" ∉ columnIds (bareColumns 2000))
  /\ ("column-datasource" ∉ columnIds (bareColumns 2000)).
Proof.
  destruct (optional_columns_spec sampleSettings samplePanels sampleResponse
              2000 (Some sampleSelection) (Some ToggleSelection) sampleStyles
              SelectTag (Some ChangeDatasource))
    as (Hloc & Hlocw & Hds & Hdsw).
  destruct (optional_columns_spec sampleSettings samplePanels bareResponse
              2000 None None sampleStyles SelectTag None)
    as (Hloc' & _ & Hds' & _).
  split; [|split; [|split]].
  - assert (Hin : "column-location" ∈ columnIds (sampleColumns 2000))
      by (apply Hloc; eexists; reflexivity).
    apply list_elem_of_fmap in Hin as (c & Hid & Hc).
    exists c. split; [exact Hc|]. split; [auto|].
    rewrite (Hlocw c Hc (eq_sym Hid)). reflexivity.
  - assert (Hin : "column-datasource" ∈ columnIds (sampleColumns 2000))
      by (apply Hds; split; eexists; reflexivity).
    apply list_elem_of_fmap in Hin as (c & Hid & Hc).
    exists c. split; [exact Hc|]. split; [auto|].
    apply (Hdsw c Hc (eq_sym Hid)).
  - intros Hin. apply Hloc' in Hin as [x Hx]. discriminate Hx.
  - intros Hin. apply Hds' in Hin as [[x Hx] _]. discriminate Hx.
Defined.

(** ** Splitting a path *)

Section Split.

Variable sep : ascii.

Lemma split_nonempty (s : string) : split sep s <> [].
Proof.
  destruct s as [|c s]; simpl; [discriminate|].
  destruct (Ascii.eqb c sep); [discriminate|].
  destruct (split sep s); discriminate.
Qed.

(** Joining the parts with the separator gives the string back. *)
Lemma join_split (s : string) : join sep (split sep s) = s.
Proof.
  induction s as [|c s IH]; [reflexivity|].
  simpl. destruct (Ascii.eqb_spec c sep) as [->|Hne].
  - pose proof (split_nonempty s) as Hs.
    simpl. destruct (split sep s) as [|part parts]; [contradiction|].
    rewrite IH. reflexivity.
  - pose proof (split_nonempty s) as Hs.
    destruct (split sep s) as [|part parts]; [contradiction|].
    destruct parts as [|part' parts].
    + simpl in *. rewrite IH. reflexivity.
    + change (join sep (String c part :: part' :: parts))
        with (String c (part +:+ String sep (join sep (part' :: parts)))).
      change (join sep (part :: part' :: parts))
        with (part +:+ String sep (join sep (part' :: parts))) in IH.
      rewrite IH. reflexivity.
Qed.

(** No part contains the separator. *)
Lemma split_parts_clean (s : string) :
  Forall (fun part => contains sep part = false) (split sep s).
Proof.
  induction s as [|c s IH]; simpl.
  - repeat constructor.
  - destruct (Ascii.eqb c sep) eqn:Hc.
    + constructor; [reflexivity | exact IH].
    + destruct (split sep s) as [|part parts].
      * repeat constructor. simpl. rewrite Hc. reflexivity.
      * apply Forall_cons in IH as [Hpart Hparts].
        constructor; [|exact Hparts]. simpl. rewrite Hc, Hpart. reflexivity.
Qed.

Lemma split_clean (part : string) :
  contains sep part = false -> split sep part = [part].
Proof.
  induction part as [|c part IH]; simpl; [reflexivity|].
  intros H. apply orb_false_iff in H as [Hc Hrest].
  rewrite Hc, (IH Hrest). reflexivity.
Qed.

Lemma split_append (part rest : string) :
  contains sep part = false ->
  split sep (part +:+ String sep rest) = part :: split sep rest.
Proof.
  induction part as [|c part IH]; simpl.
  - intros _. rewrite Ascii.eqb_refl. reflexivity.
  - intros H. apply orb_false_iff in H as [Hc Hrest].
    rewrite Hc, (IH Hrest). reflexivity.
Qed.

(** [split] finds the only way to cut a string into parts free of the
    separator. *)
Lemma split_join (parts : list string) :
  parts <> [] ->
  Forall (fun part => contains sep part = false) parts ->
  split sep (join sep parts) = parts.
Proof.
  induction parts as [|part parts IH]; [congruence|].
  intros _ Hclean. apply Forall_cons in Hclean as [Hpart Hparts].
  destruct parts as [|part' parts].
  - simpl. apply split_clean, Hpart.
  - change (join sep (part :: part' :: parts))
      with (part +:+ String sep (join sep (part' :: parts))).
    rewrite (split_append _ _ Hpart), IH; [reflexivity | discriminate | exact Hparts].
Qed.

End Split.

(** ** The location cell *)

Lemma getIconForKind_cases (v : string) :
  (v = "dashboard" -> getIconForKind v = "apps")
  /\ (v = "folder" -> getIconForKind v = "folder")
  /\ (v <> "dashboard" -> v <> "folder" -> getIconForKind v = "question-circle").
Proof.
  unfold getIconForKind. repeat split.
  - intros ->. reflexivity.
  - intros ->. reflexivity.
  - intros Hd Hf. apply String.eqb_neq in Hd, Hf. rewrite Hd, Hf. reflexivity.
Qed.

(** A segment that a property read resolves among the own properties
    renders as the specification words it. *)
Lemma locationItem_render_spec {Eff} (info : gmap string LocationInfo)
    (styles : Styles) (segment : string) :
  ownOrAbsent info segment ->
  locationItem_render (Eff:=Eff) info styles segment
  = segment_spec info styles segment.
Proof.
  intros Hown. unfold locationItem_render, segment_spec.
  rewrite (getProperty_ownOrAbsent info segment Hown).
  destruct (info !! segment); reflexivity.
Qed.

Section Location.

Context {Eff : Type}.
Variable getInstanceSettings : string -> option DataSourceInstanceSettings.
Variable panels : gmap string PanelPluginMeta.
Variable response : QueryResponse.
Variable availableWidth : Q.
Variable selection : option SelectionChecker.
Variable selectionToggle : option (@SelectionToggle Eff).
Variable styles : Styles.
Variable onTagSelected : string -> Eff.
Variable onDatasourceChange : option (option string -> Eff).

(** X16: on every row the cell of the location column cuts the row's
    location (the empty string when absent) at each '/', which for the
    empty string leaves the single segment [""]; when every segment is an
    own key of [locationInfo] or no name of [Object.prototype] either, it
    renders the segments in path order, a segment that is a key of
    [locationInfo] as a link with the icon of its kind and its name, any
    other as its raw text. *)
Theorem location_cell_own_segments :
  forall c,
    c ∈ generateColumns getInstanceSettings panels response availableWidth
          selection selectionToggle styles onTagSelected onDatasourceChange ->
    id c = "column-location" ->
    exists info render,
      metaLocationInfo (metaCustom response) = Some info
      /\ Cell c = CustomCell render
      /\ forall p,
           let location :=
             nullish (valuesGetOpt (Access.location (view_fields response))
                        (row_index p)) "" in
           exists segments,
             join "/" segments = location
             /\ Forall (fun s => contains "/" s = false) segments
             /\ segments <> []
             /\ (location = "" -> segments = [""])
             /\ (Forall (ownOrAbsent info) segments ->
                 render p
                 = Ok (Div (cellProps p) [cellStyle p; "padding-right: 10px;"]
                         (map (segment_spec info styles) segments))).
Proof.
  intros c Hc Hid.
  revert Hc.
  plan_cases response selection selectionToggle onDatasourceChange;
    intros Hc; pick_column Hc Hid;
    (eexists _, _; split; [reflexivity|]; split; [reflexivity|];
     intros p;
     eexists (split "/" _);
     split; [apply join_split|];
     split; [apply split_parts_clean|];
     split; [apply split_nonempty|];
     split; [intros Hempty; rewrite Hempty; reflexivity|];
     intros Hown; unfold locationCell; do 2 f_equal;
     apply Forall_fmap_ext_1;
     eapply Forall_impl; [exact Hown|];
     intros s Hs; apply locationItem_render_spec; exact Hs).
Qed.

End Location.

(** X16 on the sample frame, whose meta knows the folder "a" only: the
    location "a/b" renders as a link to A and the plain text "b". *)
Lemma location_cell_own_segments_witness :
  exists c render,
    c ∈ sampleColumns 2000
    /\ Cell c = CustomCell render
    /\ render (sampleCell 0)
       = Ok (Div [("role", "cell")] ["cell"; "padding-right: 10px;"]
               [Anchor (Some (KeyString "a")) [] (Some "/a") ["locationItem"]
                  [Icon "folder"; Text " "; Text "A"];
                Span (Some (KeyString "b")) [] None [Text "b"]]).
Proof.
  assert (Hin : "column-location" ∈ columnIds (sampleColumns 2000)) by in_ids.
  apply list_elem_of_fmap in Hin as (c & Hid & Hc).
  destruct (location_cell_own_segments sampleSettings samplePanels
              sampleResponse 2000 (Some sampleSelection) (Some ToggleSelection)
              sampleStyles SelectTag (Some ChangeDatasource) c Hc (eq_sym Hid))
    as (info & render & Hinfo & Hcell & Hrows).
  exists c, render. split; [exact Hc|]. split; [exact Hcell|].
  destruct (Hrows (sampleCell 0))
    as (segments & Hjoin & Hclean & Hne & _ & Hrender).
  injection Hinfo as <-.
  assert (Hsegments : segments = ["a"; "b"]).
  { rewrite <- (split_join "/" segments Hne Hclean), Hjoin. reflexivity. }
  subst segments. rewrite Hrender; [reflexivity|].
  constructor; [left; eexists; reflexivity|].
  constructor; [right; reflexivity|].
  constructor.
Defined.

(** C6 (the code departs from it): in the frame whose [locationInfo] lists
    the folder "a" only, the segment "constructor" of the location
    "a/constructor" is not a key of [locationInfo], yet the cell renders
    it as a link, labelled "Object" and without target, where the raw
    segment in plain text is due: the read [meta.locationInfo[p]] finds
    what every object inherits. *)
Lemma inherited_segment_renders_as_link :
  sampleLocationInfo !! "constructor" = None
  /\ exists c render,
       c ∈ inheritedColumns
       /\ id c = "column-location"
       /\ Cell c = CustomCell render
       /\ render (sampleCell 0)
          = Ok (Div [("role", "cell")] ["cell"; "padding-right: 10px;"]
                  [Anchor (Some (KeyString "a")) [] (Some "/a") ["locationItem"]
                     [Icon "folder"; Text " "; Text "A"];
                   Anchor (Some (KeyString "constructor")) [] None
                     ["locationItem"]
                     [Icon "question-circle"; Text " "; Text "Object"]])
       /\ render (sampleCell 0)
          <> Ok (Div [("role", "cell")] ["cell"; "padding-right: 10px;"]
                   (map (segment_spec sampleLocationInfo sampleStyles)
                      ["a"; "constructor"])).
Proof.
  split; [reflexivity|].
  eexists {| id := "column-location"; Cell := CustomCell _ |}, _.
  split; [unfold inheritedColumns, generateColumns; cbn; in_ids|].
  split; [reflexivity|]. split; [reflexivity|]. split; [reflexivity|].
  vm_compute. discriminate.
Qed.

(** ** The data source cell *)

Lemma datasourceItem_render_spec {Eff}
    (getInstanceSettings : string -> option DataSourceInstanceSettings)
    (styles : Styles) (onDatasourceChange : option string -> Eff)
    (i : nat) (v : string) :
  datasourceItem_render getInstanceSettings (typeIcon styles)
    (invalidDatasourceItem styles) onDatasourceChange i v
  = datasource_spec getInstanceSettings styles onDatasourceChange i v.
Proof.
  unfold datasourceItem_render, datasource_spec, resolvedLogo, settingsLogo.
  destruct (getInstanceSettings v) as [st|]; [|reflexivity].
  cbn. destruct (ds_settings_meta st) as [[[[[[[logo|]]|]]|]]|]; cbn; try reflexivity.
  unfold truthy. destruct (String.eqb logo ""); reflexivity.
Qed.

Section Datasource.

Context {Eff : Type}.
Variable getInstanceSettings : string -> option DataSourceInstanceSettings.
Variable panels : gmap string PanelPluginMeta.
Variable response : QueryResponse.
Variable availableWidth : Q.
Variable selection : option SelectionChecker.
Variable selectionToggle : option (@SelectionToggle Eff).
Variable styles : Styles.
Variable onTagSelected : string -> Eff.
Variable onDatasourceChange : option (option string -> Eff).

(** C7: the cell of the data source column never throws; it renders
    nothing for a row whose list is absent or empty, and otherwise one
    item per identifier, in order: a chip whose click stops the event and
    then calls the data source callback with the uid of the settings when
    these resolve with a small logo, the raw identifier in the invalid
    style when they do not. *)
Theorem datasource_cell_spec :
  forall c,
    c ∈ generateColumns getInstanceSettings panels response availableWidth
          selection selectionToggle styles onTagSelected onDatasourceChange ->
    id c = "column-datasource" ->
    exists fld onChange render,
      Access.ds_uid (view_fields response) = Some fld
      /\ onDatasourceChange = Some onChange
      /\ Cell c = CustomCell render
      /\ forall p,
           isOk (render p) = true
           /\ match get fld (row_index p) with
              | None | Some [] => render p = Ok Null
              | Some dslist =>
                  render p
                  = Ok (Div (cellProps p) [cellStyle p; datasourceItem styles]
                          (imap (datasource_spec getInstanceSettings styles onChange)
                             dslist))
              end.
Proof.
  intros c Hc Hid.
  revert Hc.
  plan_cases response selection selectionToggle onDatasourceChange;
    intros Hc; pick_column Hc Hid;
    (eexists _, _, _; split; [reflexivity|]; split; [reflexivity|];
     split; [reflexivity|];
     intros p; cbv beta zeta;
     match goal with
     | |- context [get ?f (row_index p)] =>
         destruct (get f (row_index p)) as [[|v dslist]|]
     end;
     (split; [reflexivity|]); try reflexivity;
     do 2 f_equal; apply imap_ext; intros; apply datasourceItem_render_spec).
Qed.

End Datasource.

(** C7 on the sample frame: of the list [ds1; ds2] the registry knows
    [ds1] only, so the cell shows a chip for it and "ds2" as invalid. *)
Lemma datasource_cell_witness :
  exists c render,
    c ∈ sampleColumns 2000
    /\ Cell c = CustomCell render
    /\ render (sampleCell 0)
       = Ok (Div [("role", "cell")] ["cell"; "datasourceItem"]
               [Span (Some (KeyIndex 0)) []
                  (Some [StopPropagation; PreventDefault;
                         Call (ChangeDatasource (Some "uid-ds1"))])
                  [Img "img/prometheus.svg" 14 14 "prometheus" "typeIcon";
                   Text "Prometheus"];
                Span (Some (KeyIndex 1)) ["invalidDatasourceItem"] None
                  [Text "ds2"]])
    /\ render (sampleCell 1) = Ok Null
    /\ render (sampleCell 2) = Ok Null.
Proof.
  assert (Hin : "column-datasource" ∈ columnIds (sampleColumns 2000)) by in_ids.
  apply list_elem_of_fmap in Hin as (c & Hid & Hc).
  destruct (datasource_cell_spec sampleSettings samplePanels sampleResponse 2000
              (Some sampleSelection) (Some ToggleSelection) sampleStyles
              SelectTag (Some ChangeDatasource) c Hc (eq_sym Hid))
    as (fld & onChange & render & Hfld & Hon & Hcell & Hrows).
  exists c, render. split; [exact Hc|]. split; [exact Hcell|].
  injection Hfld as <-. injection Hon as <-.
  split; [|split].
  - destruct (Hrows (sampleCell 0)) as [_ H]. exact H.
  - destruct (Hrows (sampleCell 1)) as [_ H]. exact H.
  - destruct (Hrows (sampleCell 2)) as [_ H]. exact H.
Defined.

(** ** Finding a column of the plan by its id *)

Section Inversion.

Context {Eff : Type}.
Variable getInstanceSettings : string -> option DataSourceInstanceSettings.
Variable panels : gmap string PanelPluginMeta.
Variable response : QueryResponse.
Variable availableWidth : Q.
Variable selection : option SelectionChecker.
Variable selectionToggle : option (@SelectionToggle Eff).
Variable styles : Styles.
Variable onTagSelected : string -> Eff.
Variable onDatasourceChange : option (option string -> Eff).

Abbreviation plan :=
  (generateColumns getInstanceSettings panels response availableWidth
     selection selectionToggle styles onTagSelected onDatasourceChange).

Ltac find_column c Hc Hid :=
  revert Hc;
  plan_cases response selection selectionToggle onDatasourceChange;
  intros Hc; pick_column Hc Hid.

Lemma plan_ids (c : TableColumn Eff) :
  c ∈ plan ->
  id c ∈ ["column-checkbox"; "column-name"; "column-type";
          "column-datasource"; "column-location"; "column-tags"].
Proof.
  intros Hc. apply (list_elem_of_fmap_2 id) in Hc. revert Hc.
  plan_cases response selection selectionToggle onDatasourceChange;
    cbn; intros Hc;
    repeat (apply elem_of_cons in Hc as [->|Hc]; [in_ids|]);
    apply elem_of_nil in Hc; destruct Hc.
Qed.

Lemma plan_checkbox (c : TableColumn Eff) :
  c ∈ plan -> id c = "column-checkbox" ->
  exists sel toggle,
    selection = Some sel /\ selectionToggle = Some toggle
    /\ Cell c = CustomCell
                  (checkboxCell (Access.uid (view_fields response))
                     (Access.kind (view_fields response)) sel toggle styles)
    /\ accessor c = None.
Proof.
  intros Hc Hid. find_column c Hc Hid; eauto 6.
Qed.

Lemma plan_name (c : TableColumn Eff) :
  c ∈ plan -> id c = "column-name" ->
  Cell c = CustomCell (nameCell (view_fields response) styles)
  /\ accessor c = None.
Proof.
  intros Hc Hid. find_column c Hc Hid; eauto.
Qed.

Lemma plan_type (c : TableColumn Eff) :
  c ∈ plan -> id c = "column-type" ->
  c = makeTypeColumn panels (Access.kind (view_fields response))
        (Access.panel_type (view_fields response)) TYPE_COLUMN_WIDTH styles.
Proof.
  intros Hc Hid. find_column c Hc Hid; eauto.
Qed.

Lemma plan_datasource (c : TableColumn Eff) :
  c ∈ plan -> id c = "column-datasource" ->
  exists fld onChange,
    Access.ds_uid (view_fields response) = Some fld
    /\ onDatasourceChange = Some onChange
    /\ c = makeDataSourceColumn getInstanceSettings fld DATASOURCE_COLUMN_WIDTH
             (typeIcon styles) (datasourceItem styles)
             (invalidDatasourceItem styles) onChange.
Proof.
  intros Hc Hid. find_column c Hc Hid; eauto.
Qed.

Lemma plan_location (c : TableColumn Eff) :
  c ∈ plan -> id c = "column-location" ->
  exists info,
    metaLocationInfo (metaCustom response) = Some info
    /\ Cell c = CustomCell (locationCell (view_fields response) info styles)
    /\ accessor c = None.
Proof.
  intros Hc Hid. find_column c Hc Hid; eauto.
Qed.

Lemma plan_tags (c : TableColumn Eff) :
  c ∈ plan -> id c = "column-tags" ->
  exists w,
    c = makeTagsColumn (Access.tags (view_fields response)) w
          (tagList styles) onTagSelected.
Proof.
  intros Hc Hid. find_column c Hc Hid; eauto.
Qed.

(** The plan always holds a name, a type and a tags column. *)
Lemma plan_fixed_columns :
  "column-name" ∈ columnIds plan
  /\ "column-type" ∈ columnIds plan
  /\ "column-tags" ∈ columnIds plan.
Proof.
  plan_cases response selection selectionToggle onDatasourceChange;
    repeat split; in_ids.
Qed.

End Inversion.

(** ** Event handlers and callbacks *)

Lemma handlers_imap {Eff} (P : list (Action Eff) -> Prop)
    (f : nat -> string -> Node Eff) (l : list string) :
  (forall i v, Forall P (handlers (f i v))) ->
  Forall P (flat_map handlers (imap f l)).
Proof.
  revert f. induction l as [|v l IH]; intros f Hf; simpl.
  - constructor.
  - apply Forall_app. split; [apply Hf|].
    apply IH. intros i w. apply Hf.
Qed.

(** The one handler of a data source item stops the event, then calls. *)
Lemma datasourceItem_handlers {Eff}
    (getInstanceSettings : string -> option DataSourceInstanceSettings)
    (iconClass invalidClass : string) (onChange : option string -> Eff)
    (i : nat) (v : string) :
  Forall (fun h => suppressesBeforeCalls h = true)
    (handlers (datasourceItem_render getInstanceSettings iconClass invalidClass
                 onChange i v)).
Proof.
  unfold datasourceItem_render.
  destruct (getInstanceSettings v) as [st|]; [|constructor].
  destruct (settingsLogo (Some st)) as [src|]; [|constructor].
  destruct (truthy src); repeat constructor.
Qed.

Section Callbacks.

Context {Eff : Type}.
Variable getInstanceSettings : string -> option DataSourceInstanceSettings.
Variable panels : gmap string PanelPluginMeta.
Variable response : QueryResponse.
Variable availableWidth : Q.
Variable selection : option SelectionChecker.
Variable selectionToggle : option (@SelectionToggle Eff).
Variable styles : Styles.
Variable onTagSelected : string -> Eff.
Variable onDatasourceChange : option (option string -> Eff).

Abbreviation plan :=
  (generateColumns getInstanceSettings panels response availableWidth
     selection selectionToggle styles onTagSelected onDatasourceChange).

(** Every handler in a data source cell stops propagation and prevents
    the default before it calls the data source callback. *)
Lemma datasource_handlers_suppress :
  forall c render p node,
    c ∈ plan -> id c = "column-datasource" ->
    Cell c = CustomCell render -> render p = Ok node ->
    Forall (fun h => suppressesBeforeCalls h = true) (handlers node).
Proof.
  intros c render p node Hc Hid Hcell Hrender.
  destruct (plan_datasource _ _ _ _ _ _ _ _ _ c Hc Hid)
    as (fld & onChange & _ & _ & ->).
  cbn in Hcell. injection Hcell as <-. cbv beta zeta in Hrender.
  destruct (get fld (row_index p)) as [[|v dslist]|];
    injection Hrender as <-; try constructor.
  apply (handlers_imap _
           (datasourceItem_render getInstanceSettings (typeIcon styles)
              (invalidDatasourceItem styles) onChange) (v :: dslist)).
  intros i w. apply datasourceItem_handlers.
Qed.

(** The change handler of a selection checkbox calls the toggle and does
    nothing else, on every row. *)
Lemma checkbox_handler_calls_toggle_only :
  forall c render p node,
    c ∈ plan -> id c = "column-checkbox" ->
    Cell c = CustomCell render -> render p = Ok node ->
    exists toggle kind uid,
      selectionToggle = Some toggle
      /\ handlers node = [[Call (toggle kind uid)]]
      /\ suppressesBeforeCalls [Call (toggle kind uid)] = false.
Proof.
  intros c render p node Hc Hid Hcell Hrender.
  destruct (plan_checkbox _ _ _ _ _ _ _ _ _ c Hc Hid)
    as (sel & toggle & _ & Htoggle & Hcell' & _).
  rewrite Hcell' in Hcell. injection Hcell as <-.
  unfold checkboxCell in Hrender.
  destruct (valuesGet (Access.uid (view_fields response)) (row_index p))
    as [uid|]; [|discriminate].
  injection Hrender as <-. eexists _, _, _.
  split; [exact Htoggle|]. split; reflexivity.
Qed.

End Callbacks.

(** C8 (the code departs from it): on the first row of the sample frame
    the change handler of the selection checkbox calls the toggle without
    stopping propagation or preventing the default first, where the
    handler of the header checkbox of the same column and the click
    handler of a data source chip both do. *)
Lemma selection_toggle_not_suppressed :
  exists c rest render node,
    sampleColumns 2000 = c :: rest
    /\ Cell c = CustomCell render
    /\ render (sampleCell 0) = Ok node
    /\ handlers node = [[Call (ToggleSelection (Some "dashboard") (Some "u1"))]]
    /\ ~ Forall (fun h => suppressesBeforeCalls h = true) (handlers node)
    /\ handlers (Header c)
       = [[StopPropagation; PreventDefault; Alert "SELECT ALL!!!"]]
    /\ Forall (fun h => suppressesBeforeCalls h = true) (handlers (Header c)).
Proof.
  eexists _, _, _, _.
  split; [reflexivity|]. split; [reflexivity|]. split; [reflexivity|].
  split; [reflexivity|]. split.
  - intros H. apply Forall_cons in H as [H _]. discriminate H.
  - split; [reflexivity|]. repeat constructor.
Qed.

(** ** Missing fields *)

(** The accessor of the type column returns whenever the [panel_type]
    field exists for the panel rows. *)
Lemma typeIconText_total (panels : gmap string PanelPluginMeta)
    (kindField typeField : option (Field string)) (i : nat) :
  (valuesGetOpt kindField i = Some "panel" -> is_Some typeField) ->
  isOk (typeIconText panels kindField typeField i) = true.
Proof.
  intros Hfield. unfold typeIconText.
  destruct (truthy _); [|reflexivity].
  destruct (String.eqb _ "dashboard"); [reflexivity|].
  destruct (String.eqb _ "folder"); [reflexivity|].
  destruct (String.eqb_spec (nullish (valuesGetOpt kindField i) "dashboard") "panel")
    as [Hpanel|]; [|reflexivity].
  destruct (valuesGetOpt kindField i) as [k|]; [|discriminate Hpanel].
  cbn [nullish] in Hpanel. subst k.
  destruct (Hfield eq_refl) as [tf ->]. cbn [valuesGet].
  destruct (get tf i) as [ty|]; [|reflexivity].
  destruct (truthy ty); [|reflexivity].
  destruct (getProperty panels ty) as [[[nm|] info]|inherited|];
    cbn [panel_name]; try reflexivity.
  - destruct (truthy nm); reflexivity.
  - destruct (inheritedName inherited) as [nm|]; [destruct (truthy nm)|];
      reflexivity.
Qed.

Section MissingFields.

Context {Eff : Type}.
Variable getInstanceSettings : string -> option DataSourceInstanceSettings.
Variable panels : gmap string PanelPluginMeta.
Variable response : QueryResponse.
Variable availableWidth : Q.
Variable selection : option SelectionChecker.
Variable selectionToggle : option (@SelectionToggle Eff).
Variable styles : Styles.
Variable onTagSelected : string -> Eff.
Variable onDatasourceChange : option (option string -> Eff).

Abbreviation plan :=
  (generateColumns getInstanceSettings panels response availableWidth
     selection selectionToggle styles onTagSelected onDatasourceChange).
Abbreviation access := (view_fields response).

(** C9, as amended: when the view has its [name] and [tags] fields, its
    [uid] field if rows can be selected and its [panel_type] field if
    there are panel rows, no cell formatter of the plan throws on any row;
    the location column is left out when the meta has no [locationInfo],
    the data source column when the view has no [ds_uid] field; the tags
    cell and the data source cell render nothing on a row whose value is
    absent. *)
Theorem formatters_total_given_fields :
  is_Some (Access.name access) ->
  is_Some (Access.tags access) ->
  (is_Some selection -> is_Some selectionToggle -> is_Some (Access.uid access)) ->
  (forall i, valuesGetOpt (Access.kind access) i = Some "panel" ->
             is_Some (Access.panel_type access)) ->
  (forall c, c ∈ plan -> neverThrows c)
  /\ (metaLocationInfo (metaCustom response) = None ->
        "column-location" ∉ columnIds plan)
  /\ (Access.ds_uid access = None -> "column-datasource" ∉ columnIds plan)
  /\ (forall c render p,
        c ∈ plan -> id c = "column-tags" -> Cell c = CustomCell render ->
        valuesGetOpt (Access.tags access) (row_index p) = None ->
        render p = Ok Null)
  /\ (forall c render p,
        c ∈ plan -> id c = "column-datasource" -> Cell c = CustomCell render ->
        valuesGetOpt (Access.ds_uid access) (row_index p) = None ->
        render p = Ok Null).
Proof.
  intros [nameField Hname] [tagsField Htags] Huid Htype.
  split; [|split; [|split; [|split]]].
  - intros c Hc. pose proof (plan_ids _ _ _ _ _ _ _ _ _ c Hc) as Hids.
    repeat (apply elem_of_cons in Hids as [Hid|Hids]); [..|apply elem_of_nil in Hids; destruct Hids].
    + destruct (plan_checkbox _ _ _ _ _ _ _ _ _ c Hc Hid)
        as (sel & toggle & Hsel & Htoggle & Hcell & Hacc).
      destruct Huid as [uidField Hfield]; [rewrite Hsel; eauto | rewrite Htoggle; eauto |].
      split; [|rewrite Hacc; discriminate].
      intros render Hrender p. rewrite Hcell in Hrender. injection Hrender as <-.
      unfold checkboxCell. rewrite Hfield. reflexivity.
    + destruct (plan_name _ _ _ _ _ _ _ _ _ c Hc Hid) as (Hcell & Hacc).
      split; [|rewrite Hacc; discriminate].
      intros render Hrender p. rewrite Hcell in Hrender. injection Hrender as <-.
      unfold nameCell. rewrite Hname. reflexivity.
    + rewrite (plan_type _ _ _ _ _ _ _ _ _ c Hc Hid).
      split; [discriminate|].
      intros acc Hacc i. cbn in Hacc. injection Hacc as <-.
      pose proof (typeIconText_total panels (Access.kind access)
                    (Access.panel_type access) i (Htype i)) as Hok.
      destruct (typeIconText panels (Access.kind access)
                  (Access.panel_type access) i) as [[icon txt]|];
        [reflexivity | discriminate Hok].
    + destruct (plan_datasource _ _ _ _ _ _ _ _ _ c Hc Hid)
        as (fld & onChange & _ & _ & ->).
      split; [|discriminate].
      intros render Hrender p. cbn in Hrender. injection Hrender as <-.
      cbv beta zeta. destruct (get fld (row_index p)) as [[|v dslist]|]; reflexivity.
    + destruct (plan_location _ _ _ _ _ _ _ _ _ c Hc Hid) as (info & _ & Hcell & Hacc).
      split; [|rewrite Hacc; discriminate].
      intros render Hrender p. rewrite Hcell in Hrender. injection Hrender as <-.
      reflexivity.
    + destruct (plan_tags _ _ _ _ _ _ _ _ _ c Hc Hid) as (w & ->).
      split; [|discriminate].
      intros render Hrender p. cbn in Hrender. injection Hrender as <-.
      rewrite Htags. cbn [valuesGet]. destruct (get tagsField (row_index p)); reflexivity.
  - intros Hmeta Hin. apply list_elem_of_fmap in Hin as (c & Hid & Hc).
    destruct (plan_location _ _ _ _ _ _ _ _ _ c Hc (eq_sym Hid)) as (info & Hinfo & _).
    congruence.
  - intros Hds Hin. apply list_elem_of_fmap in Hin as (c & Hid & Hc).
    destruct (plan_datasource _ _ _ _ _ _ _ _ _ c Hc (eq_sym Hid))
      as (fld & onChange & Hfld & _).
    congruence.
  - intros c render p Hc Hid Hcell Hrow.
    destruct (plan_tags _ _ _ _ _ _ _ _ _ c Hc Hid) as (w & ->).
    cbn in Hcell. injection Hcell as <-.
    rewrite Htags in *. cbn [valuesGet valuesGetOpt] in *. rewrite Hrow. reflexivity.
  - intros c render p Hc Hid Hcell Hrow.
    destruct (plan_datasource _ _ _ _ _ _ _ _ _ c Hc Hid)
      as (fld & onChange & Hfld & _ & ->).
    cbn in Hcell. injection Hcell as <-.
    rewrite Hfld in Hrow. cbn [valuesGetOpt] in Hrow. cbv beta zeta.
    rewrite Hrow. reflexivity.
Qed.


End MissingFields.

(** C9 on the sample frame, which has every field: no formatter of its
    six columns throws. *)
Lemma formatters_total_witness :
  is_Some (Access.name sampleAccess)
  /\ is_Some (Access.tags sampleAccess)
  /\ columnIds (sampleColumns 2000)
     = ["column-checkbox"; "column-name"; "column-type"; "column-datasource";
        "column-location"; "column-tags"]
  /\ Forall neverThrows (sampleColumns 2000).
Proof.
  assert (Hname : is_Some (Access.name (view_fields sampleResponse)))
    by (eexists; reflexivity).
  assert (Htags : is_Some (Access.tags (view_fields sampleResponse)))
    by (eexists; reflexivity).
  split; [exact Hname|]. split; [exact Htags|]. split; [reflexivity|].
  apply Forall_forall.
  apply (formatters_total_given_fields sampleSettings samplePanels
           sampleResponse 2000 (Some sampleSelection) (Some ToggleSelection)
           sampleStyles SelectTag (Some ChangeDatasource) Hname Htags).
  - intros _ _. eexists; reflexivity.
  - intros i _. eexists; reflexivity.
Defined.

(** C9 fails as stated: in a view without tags field the cell of the tags
    column throws on every row. *)
Lemma tags_cell_throws_without_tags_field :
  Access.tags (view_fields bareResponse) = None
  /\ exists c render,
       c ∈ bareColumns 1000
       /\ id c = "column-tags"
       /\ Cell c = CustomCell render
       /\ render (sampleCell 0) = TypeError
       /\ ~ neverThrows c.
Proof.
  split; [reflexivity|].
  eexists (makeTagsColumn None _ "tagList" SelectTag), _.
  split; [unfold bareColumns, generateColumns; cbn; in_ids|].
  split; [reflexivity|]. split; [reflexivity|]. split; [reflexivity|].
  intros [Hcell _]. specialize (Hcell _ eq_refl (sampleCell 0)). discriminate Hcell.
Qed.


(** * Further properties of the plan *)

(** ** Order and identity of the columns *)

Section Layout.

Context {Eff : Type}.
Variable getInstanceSettings : string -> option DataSourceInstanceSettings.
Variable panels : gmap string PanelPluginMeta.
Variable response : QueryResponse.
Variable availableWidth : Q.
Variable selection : option SelectionChecker.
Variable selectionToggle : option (@SelectionToggle Eff).
Variable styles : Styles.
Variable onTagSelected : string -> Eff.
Variable onDatasourceChange : option (option string -> Eff).

Abbreviation plan :=
  (generateColumns getInstanceSettings panels response availableWidth
     selection selectionToggle styles onTagSelected onDatasourceChange).

(** X1: the columns come in the fixed order checkbox, name, type, data
    source, location, tags, with name, type and tags always there and
    each of the other three there exactly when its gate is open. *)
Theorem plan_order :
  columnIds plan
  = expectedIds selection selectionToggle
      (Access.ds_uid (view_fields response)) onDatasourceChange
      (metaLocationInfo (metaCustom response)).
Proof.
  plan_cases response selection selectionToggle onDatasourceChange;
    reflexivity.
Qed.

(** X2: no two columns of a plan have the same id. *)
Theorem plan_ids_distinct : NoDup (columnIds plan).
Proof.
  plan_cases response selection selectionToggle onDatasourceChange;
    cbn; apply (bool_decide_unpack _); vm_compute; exact I.
Qed.

End Layout.

(** ** Widths *)

(** Replaces every [Qmax] and [Qmin] of the goal, innermost first, by a
    variable constrained to be one of its arguments. *)
Ltac qmax_elim :=
  repeat match goal with
  | |- context [Qmax ?a ?b] =>
      lazymatch a with context [Qmax _ _] => fail | _ => idtac end;
      lazymatch b with context [Qmax _ _] => fail | _ => idtac end;
      let H := fresh "Hmax" in
      let m := fresh "m" in
      pose proof (Q.max_spec a b) as H;
      set (m := Qmax a b) in *; clearbody m;
      destruct H as [[? ?]|[? ?]]
  | |- context [Qmin ?a ?b] =>
      lazymatch a with context [Qmax _ _] => fail | _ => idtac end;
      lazymatch b with context [Qmax _ _] => fail | _ => idtac end;
      let H := fresh "Hmin" in
      let m := fresh "m" in
      pose proof (Q.min_spec a b) as H;
      set (m := Qmin a b) in *; clearbody m;
      destruct H as [[? ?]|[? ?]]
  end.

Ltac width_unfold :=
  cbn [width makeTagsColumn makeTypeColumn makeDataSourceColumn];
  unfold remainingAtLocation, afterSelection, nameWidth, TYPE_COLUMN_WIDTH,
    DATASOURCE_COLUMN_WIDTH, LOCATION_COLUMN_WIDTH, TAGS_COLUMN_WIDTH in *.

Section Widths.

Context {Eff : Type}.
Variable getInstanceSettings : string -> option DataSourceInstanceSettings.
Variable panels : gmap string PanelPluginMeta.
Variable response : QueryResponse.
Variable selection : option SelectionChecker.
Variable selectionToggle : option (@SelectionToggle Eff).
Variable styles : Styles.
Variable onTagSelected : string -> Eff.
Variable onDatasourceChange : option (option string -> Eff).

Abbreviation planAt availableWidth :=
  (generateColumns getInstanceSettings panels response availableWidth
     selection selectionToggle styles onTagSelected onDatasourceChange).

(** X4: whatever the supplied width, the name column is at least 300
    wide, the type column exactly 250 and the location column at least
    200. *)
Theorem plan_floors (availableWidth : Q) (c : TableColumn Eff) :
  c ∈ planAt availableWidth ->
  (id c = "column-name" -> (300 <= width c)%Q)
  /\ (id c = "column-type" -> width c = 250%Q)
  /\ (id c = "column-location" -> (200 <= width c)%Q).
Proof.
  intros Hc. split; [|split]; intros Hid; revert Hc;
    plan_cases response selection selectionToggle onDatasourceChange;
    intros Hc; pick_column Hc Hid;
    cbn [width makeTypeColumn]; first [reflexivity | apply Q.le_max_r].
Qed.

(** X5: the tags column gets the budget left at the location step when
    there is no location column, and otherwise that budget less 200 but
    no more than 300. *)
Theorem plan_tags_width (availableWidth : Q) (c : TableColumn Eff) :
  c ∈ planAt availableWidth ->
  id c = "column-tags" ->
  let remaining :=
    remainingAtLocation availableWidth selection selectionToggle
      (Access.ds_uid (view_fields response)) onDatasourceChange in
  (width c == match metaLocationInfo (metaCustom response) with
              | Some _ => Qmin 300 (remaining - 200)
              | None => remaining
              end)%Q.
Proof.
  intros Hc Hid. revert Hc.
  plan_cases response selection selectionToggle onDatasourceChange;
    intros Hc; pick_column Hc Hid; width_unfold; qmax_elim; lra.
Qed.

(** X6: from a supplied width of 980 on, no column of the plan has a
    negative width, whichever gates are open. *)
Theorem plan_widths_nonnegative (availableWidth : Q) :
  (980 <= availableWidth)%Q ->
  Forall (fun c => (0 <= width c)%Q)
    (generateColumns getInstanceSettings panels response availableWidth
     selection selectionToggle styles onTagSelected onDatasourceChange).
Proof.
  intros Hwide.
  plan_cases response selection selectionToggle onDatasourceChange;
    cbn [app]; repeat constructor; width_unfold; qmax_elim; lra.
Qed.

(** X7: widening the grid shrinks no column: each column of the plan for
    the larger width is at least as wide as its counterpart for the
    smaller one. *)
Theorem plan_widths_monotone (narrow wide : Q) :
  (narrow <= wide)%Q ->
  Forall2 (fun c d => id c = id d /\ (width c <= width d)%Q)
    (generateColumns getInstanceSettings panels response narrow
     selection selectionToggle styles onTagSelected onDatasourceChange)
    (generateColumns getInstanceSettings panels response wide
     selection selectionToggle styles onTagSelected onDatasourceChange).
Proof.
  intros Hle.
  plan_cases response selection selectionToggle onDatasourceChange;
    cbn [app]; repeat constructor; width_unfold; qmax_elim; lra.
Qed.

End Widths.

(** X4 on the sample call at 1000 pixels, where both floors bind. *)
Lemma plan_floors_witness :
  exists nameColumn locationColumn,
    nameColumn ∈ sampleColumns 1000 /\ id nameColumn = "column-name"
    /\ locationColumn ∈ sampleColumns 1000
    /\ id locationColumn = "column-location"
    /\ (300 <= width nameColumn)%Q /\ (200 <= width locationColumn)%Q.
Proof.
  assert (Hn : "column-name" ∈ columnIds (sampleColumns 1000)) by in_ids.
  assert (Hl : "column-location" ∈ columnIds (sampleColumns 1000)) by in_ids.
  apply list_elem_of_fmap in Hn as (n & Hnid & Hn).
  apply list_elem_of_fmap in Hl as (l & Hlid & Hl).
  exists n, l. repeat (split; [solve [auto]|]).
  split.
  - apply (plan_floors sampleSettings samplePanels sampleResponse
             (Some sampleSelection) (Some ToggleSelection) sampleStyles
             SelectTag (Some ChangeDatasource) 1000 n Hn). auto.
  - apply (plan_floors sampleSettings samplePanels sampleResponse
             (Some sampleSelection) (Some ToggleSelection) sampleStyles
             SelectTag (Some ChangeDatasource) 1000 l Hl). auto.
Defined.

(** X5 on the sample calls: with a location column the tags column stops
    at 300 pixels however wide the grid; without one it takes the rest. *)
Lemma plan_tags_width_witness :
  exists c d,
    c ∈ sampleColumns 5000 /\ id c = "column-tags" /\ (width c == 300)%Q
    /\ d ∈ bareColumns 5000 /\ id d = "column-tags" /\ (width d == 3750)%Q.
Proof.
  assert (Hc : "column-tags" ∈ columnIds (sampleColumns 5000)) by in_ids.
  assert (Hd : "column-tags" ∈ columnIds (bareColumns 5000)) by in_ids.
  apply list_elem_of_fmap in Hc as (c & Hcid & Hc).
  apply list_elem_of_fmap in Hd as (d & Hdid & Hd).
  exists c, d.
  split; [exact Hc|]. split; [auto|]. split.
  - rewrite (plan_tags_width sampleSettings samplePanels sampleResponse
               (Some sampleSelection) (Some ToggleSelection) sampleStyles
               SelectTag (Some ChangeDatasource) 5000 c Hc (eq_sym Hcid)).
    reflexivity.
  - split; [exact Hd|]. split; [auto|].
    rewrite (plan_tags_width sampleSettings samplePanels bareResponse
               None None sampleStyles SelectTag None 5000 d Hd (eq_sym Hdid)).
    reflexivity.
Defined.

(** X6 on the sample call: at 980 pixels every width is at least 0; one
    pixel less and, with every gate open, the tags column is negative. *)
Lemma plan_widths_nonnegative_witness :
  Forall (fun c => (0 <= width c)%Q) (sampleColumns 980)
  /\ ~ Forall (fun c => (0 <= width c)%Q) (sampleColumns 979).
Proof.
  split.
  - apply (plan_widths_nonnegative sampleSettings samplePanels sampleResponse
             (Some sampleSelection) (Some ToggleSelection) sampleStyles
             SelectTag (Some ChangeDatasource) 980).
    discriminate.
  - intros H. apply Forall_app in H as [_ H].
    apply Forall_cons in H as [H _]. apply H. reflexivity.
Defined.

(** X7 on the sample call, from 1000 to 2000 pixels. *)
Lemma plan_widths_monotone_witness :
  Forall2 (fun c d => id c = id d /\ (width c <= width d)%Q)
    (sampleColumns 1000) (sampleColumns 2000).
Proof.
  apply (plan_widths_monotone sampleSettings samplePanels sampleResponse
           (Some sampleSelection) (Some ToggleSelection) sampleStyles
           SelectTag (Some ChangeDatasource) 1000 2000).
  discriminate.
Defined.

(** ** The type accessor *)

Lemma truthy_nonempty (s : string) : truthy s = true -> s <> "".
Proof.
  unfold truthy. intros H ->. discriminate H.
Qed.

(** X8: whenever the [panel_type] field exists for the panel rows, the
    accessor returns a label that is not empty and an icon whose path ends
    in ".svg". *)
Theorem typeIconText_wellformed (panels : gmap string PanelPluginMeta)
    (kindField typeField : option (Field string)) (i : nat) :
  (valuesGetOpt kindField i = Some "panel" -> is_Some typeField) ->
  exists icon txt,
    typeIconText panels kindField typeField i = Ok (icon, txt)
    /\ txt <> ""
    /\ endsWith icon ".svg" = true.
Proof.
  intros Hfield. unfold typeIconText.
  set (kind := nullish (valuesGetOpt kindField i) "dashboard").
  assert (Hkind : kind = "panel" -> valuesGetOpt kindField i = Some "panel").
  { subst kind. destruct (valuesGetOpt kindField i) as [k|]; cbn [nullish].
    - intros ->. reflexivity.
    - discriminate. }
  destruct (truthy kind) eqn:Htruthy;
    [|eexists _, _; split; [reflexivity|]; split; [discriminate|reflexivity]].
  destruct (String.eqb kind "dashboard");
    [eexists _, _; split; [reflexivity|]; split; [discriminate|reflexivity]|].
  destruct (String.eqb kind "folder");
    [eexists _, _; split; [reflexivity|]; split; [discriminate|reflexivity]|].
  destruct (String.eqb_spec kind "panel") as [Hpanel|_];
    [|eexists _, _; split; [reflexivity|]; split;
      [apply truthy_nonempty, Htruthy|reflexivity]].
  destruct (Hfield (Hkind Hpanel)) as [tf ->]. cbn [valuesGet].
  destruct (get tf i) as [ty|];
    [|eexists _, _; split; [reflexivity|]; split;
      [apply truthy_nonempty, Htruthy|reflexivity]].
  destruct (truthy ty) eqn:Hty;
    [|eexists _, _; split; [reflexivity|]; split;
      [apply truthy_nonempty, Htruthy|reflexivity]].
  destruct (getProperty panels ty) as [[[nm|] info]|inherited|];
    cbn [panel_name panel_info];
    try (eexists _, _; split; [reflexivity|]; split;
         [apply truthy_nonempty, Hty|reflexivity]).
  - destruct (truthy nm) eqn:Hnm;
      [|eexists _, _; split; [reflexivity|]; split;
        [apply truthy_nonempty, Hty|reflexivity]].
    eexists _, _; split; [reflexivity|]. split; [apply truthy_nonempty, Hnm|].
    destruct info as [[[[logo|]]]|]; cbn; try reflexivity.
    destruct (truthy logo); cbn [andb]; [|reflexivity].
    destruct (endsWith logo ".svg") eqn:Hsvg; [exact Hsvg|reflexivity].
  - destruct (inheritedName inherited) as [nm|];
      [|eexists _, _; split; [reflexivity|]; split;
        [apply truthy_nonempty, Hty|reflexivity]].
    destruct (truthy nm) eqn:Hnm;
      eexists _, _; (split; [reflexivity|]); split;
      first [apply truthy_nonempty, Hnm | apply truthy_nonempty, Hty | reflexivity].
Qed.

(** X8 on the panel row of the sample frame. *)
Lemma typeIconText_wellformed_witness :
  exists icon txt,
    typeIconText samplePanels (Access.kind sampleAccess)
      (Access.panel_type sampleAccess) 2 = Ok (icon, txt)
    /\ txt <> "" /\ endsWith icon ".svg" = true.
Proof.
  apply (typeIconText_wellformed samplePanels (Access.kind sampleAccess)
           (Access.panel_type sampleAccess) 2).
  intros _. eexists. reflexivity.
Defined.

(** X9: on a row that is not a panel the accessor returns, and its
    result depends neither on the [panel_type] field, present or not, nor
    on the panel registry. *)
Theorem typeIconText_ignores_panel_data
    (panels panels' : gmap string PanelPluginMeta)
    (kindField typeField typeField' : option (Field string)) (i : nat) :
  valuesGetOpt kindField i <> Some "panel" ->
  isOk (typeIconText panels kindField typeField i) = true
  /\ typeIconText panels kindField typeField i
     = typeIconText panels' kindField typeField' i.
Proof.
  intros Hkind. unfold typeIconText.
  set (kind := nullish (valuesGetOpt kindField i) "dashboard").
  assert (Hnot : String.eqb kind "panel" = false).
  { apply String.eqb_neq. subst kind.
    destruct (valuesGetOpt kindField i) as [k|]; cbn [nullish].
    - intros ->. apply Hkind. reflexivity.
    - discriminate. }
  rewrite Hnot.
  destruct (truthy kind); [|split; reflexivity].
  destruct (String.eqb kind "dashboard"); [split; reflexivity|].
  destruct (String.eqb kind "folder"); split; reflexivity.
Qed.

(** X9 on the folder row of the sample frame, with and without the
    [panel_type] field and under two registries. *)
Lemma typeIconText_ignores_panel_data_witness :
  typeIconText samplePanels (Access.kind sampleAccess)
    (Access.panel_type sampleAccess) 1
  = typeIconText otherPanels (Access.kind untypedAccess)
      (Access.panel_type untypedAccess) 1.
Proof.
  apply (typeIconText_ignores_panel_data samplePanels otherPanels
           (Access.kind sampleAccess) (Access.panel_type sampleAccess)
           (Access.panel_type untypedAccess) 1).
  discriminate.
Defined.

(** ** Cells *)

Lemma split_length (sep : ascii) (s : string) :
  length (split sep s) = S (countChar sep s).
Proof.
  induction s as [|c s IH]; [reflexivity|].
  simpl. destruct (Ascii.eqb c sep).
  - simpl. rewrite IH. reflexivity.
  - destruct (split sep s) as [|part parts]; [discriminate IH|].
    simpl in *. exact IH.
Qed.

Lemma locationItems_no_handlers {Eff} (info : gmap string LocationInfo)
    (styles : Styles) (parts : list string) :
  flat_map handlers (map (locationItem_render (Eff:=Eff) info styles) parts) = [].
Proof.
  induction parts as [|part parts IH]; [reflexivity|].
  simpl. rewrite IH. unfold locationItem_render.
  destruct (getProperty info part) as [li|[fname|]|]; reflexivity.
Qed.

Section Cells.

Context {Eff : Type}.
Variable getInstanceSettings : string -> option DataSourceInstanceSettings.
Variable panels : gmap string PanelPluginMeta.
Variable response : QueryResponse.
Variable availableWidth : Q.
Variable selection : option SelectionChecker.
Variable selectionToggle : option (@SelectionToggle Eff).
Variable styles : Styles.
Variable onTagSelected : string -> Eff.
Variable onDatasourceChange : option (option string -> Eff).

Abbreviation plan :=
  (generateColumns getInstanceSettings panels response availableWidth
     selection selectionToggle styles onTagSelected onDatasourceChange).
Abbreviation access := (view_fields response).

(** X10: a selection checkbox is never checked while disabled: it is
    checked only on a row that has a uid and that the selection predicate
    accepts, and a row without uid is shown unchecked whatever the
    predicate says. *)
Theorem checkbox_checked_only_if_enabled
    (c : TableColumn Eff) (render : TableCellProps -> Result (Node Eff))
    (uidField : Field string) (p : TableCellProps) :
  c ∈ plan -> id c = "column-checkbox" -> Cell c = CustomCell render ->
  Access.uid access = Some uidField ->
  exists disabled value onChange,
    render p
    = Ok (Div (cellProps p) [cellStyle p]
            [Div [] [checkbox styles]
               [Checkbox (Some disabled) (Some value) onChange]])
    /\ (value = true -> disabled = false)
    /\ (get uidField (row_index p) = None -> value = false)
    /\ (value = true ->
        exists sel kind,
          selection = Some sel
          /\ sel kind (get uidField (row_index p)) = true).
Proof.
  intros Hc Hid Hcell Huid.
  destruct (plan_checkbox _ _ _ _ _ _ _ _ _ c Hc Hid)
    as (sel & toggle & Hsel & _ & Hcell' & _).
  rewrite Hcell' in Hcell. injection Hcell as <-.
  unfold checkboxCell. rewrite Huid. cbn [valuesGet].
  eexists _, _, _. split; [reflexivity|].
  destruct (get uidField (row_index p)) as [uid|]; cbn [notNull negb].
  - split; [reflexivity|]. split; [discriminate|].
    rewrite andb_true_r. intros Hsel'. eexists sel, _. split; [exact Hsel|exact Hsel'].
  - rewrite andb_false_r. split; [discriminate|]. split; [reflexivity|discriminate].
Qed.

(** X11: the tags cell hands the stored list of a row to the tag list as
    it is, in a wrapper carrying the cell's props; this also for the empty
    list, for which a wrapper with an empty tag list is rendered. *)
Theorem tags_cell_passes_list
    (c : TableColumn Eff) (render : TableCellProps -> Result (Node Eff))
    (tagsField : Field (list string)) (p : TableCellProps)
    (tagNames : list string) :
  c ∈ plan -> id c = "column-tags" -> Cell c = CustomCell render ->
  Access.tags access = Some tagsField ->
  get tagsField (row_index p) = Some tagNames ->
  render p
  = Ok (Div (cellProps p) [cellStyle p]
          [TagList (tagList styles) tagNames onTagSelected]).
Proof.
  intros Hc Hid Hcell Hfield Hrow.
  destruct (plan_tags _ _ _ _ _ _ _ _ _ c Hc Hid) as (w & ->).
  cbn in Hcell. injection Hcell as <-.
  rewrite Hfield. cbn [valuesGet]. rewrite Hrow. reflexivity.
Qed.

(** X12: the location cell renders one item more than there are '/' in
    the row's location, hence at least one, also for a row without
    location. *)
Theorem location_cell_item_count
    (c : TableColumn Eff) (render : TableCellProps -> Result (Node Eff))
    (p : TableCellProps) :
  c ∈ plan -> id c = "column-location" -> Cell c = CustomCell render ->
  exists className items,
    render p = Ok (Div (cellProps p) className items)
    /\ length items
       = S (countChar "/"
              (nullish (valuesGetOpt (Access.location access) (row_index p)) "")).
Proof.
  intros Hc Hid Hcell.
  destruct (plan_location _ _ _ _ _ _ _ _ _ c Hc Hid) as (info & _ & Hcell' & _).
  rewrite Hcell' in Hcell. injection Hcell as <-.
  unfold locationCell. eexists _, _. split; [reflexivity|].
  rewrite length_map. apply split_length.
Qed.

(** X13: the name cell, the location cell and the type accessor attach no
    event handler to what they render: in these columns nothing calls
    back into the caller. *)
Theorem passive_cells_have_no_handlers (c : TableColumn Eff) (node : Node Eff) :
  c ∈ plan ->
  (id c = "column-name" \/ id c = "column-location" ->
   forall render p,
     Cell c = CustomCell render -> render p = Ok node -> handlers node = [])
  /\ (id c = "column-type" ->
      forall acc i,
        accessor c = Some acc -> acc i = Ok node -> handlers node = []).
Proof.
  intros Hc. split.
  - intros [Hid|Hid] render p Hcell Hrender.
    + destruct (plan_name _ _ _ _ _ _ _ _ _ c Hc Hid) as (Hcell' & _).
      rewrite Hcell' in Hcell. injection Hcell as <-.
      unfold nameCell in Hrender.
      destruct (valuesGet (Access.name access) (row_index p)) as [[nm|]|];
        try discriminate; injection Hrender as <-; reflexivity.
    + destruct (plan_location _ _ _ _ _ _ _ _ _ c Hc Hid) as (info & _ & Hcell' & _).
      rewrite Hcell' in Hcell. injection Hcell as <-.
      unfold locationCell in Hrender. injection Hrender as <-.
      apply locationItems_no_handlers.
  - intros Hid acc i Hacc Hrender.
    rewrite (plan_type _ _ _ _ _ _ _ _ _ c Hc Hid) in Hacc.
    cbn in Hacc. injection Hacc as <-.
    destruct (typeIconText panels (Access.kind access)
                (Access.panel_type access) i) as [[icon txt]|];
      [|discriminate]. injection Hrender as <-. reflexivity.
Qed.

End Cells.

(** X10 on the sample frame: the panel row has no uid, so its checkbox is
    unchecked. *)
Lemma checkbox_checked_only_if_enabled_witness :
  exists c render disabled onChange,
    c ∈ sampleColumns 2000
    /\ Cell c = CustomCell render
    /\ render (sampleCell 2)
       = Ok (Div (cellProps (sampleCell 2)) [cellStyle (sampleCell 2)]
               [Div [] [checkbox sampleStyles]
                  [Checkbox (Some disabled) (Some false) onChange]]).
Proof.
  assert (Hin : "column-checkbox" ∈ columnIds (sampleColumns 2000)) by in_ids.
  apply list_elem_of_fmap in Hin as (c & Hid & Hc). symmetry in Hid.
  destruct (plan_checkbox sampleSettings samplePanels sampleResponse 2000
              (Some sampleSelection) (Some ToggleSelection) sampleStyles
              SelectTag (Some ChangeDatasource) c Hc Hid)
    as (sel & toggle & _ & _ & Hcell & _).
  destruct (checkbox_checked_only_if_enabled sampleSettings samplePanels
              sampleResponse 2000 (Some sampleSelection) (Some ToggleSelection)
              sampleStyles SelectTag (Some ChangeDatasource)
              c _ _ (sampleCell 2) Hc Hid Hcell eq_refl)
    as (disabled & value & onChange & Hrender & _ & Hnouid & _).
  eexists c, _, disabled, onChange.
  split; [exact Hc|]. split; [exact Hcell|].
  rewrite Hrender, (Hnouid eq_refl). reflexivity.
Defined.

(** X11 on the sample frame: the first row keeps its two equal tags, the
    third row, whose list is empty, still gets a wrapper. *)
Lemma tags_cell_passes_list_witness :
  exists c render,
    c ∈ sampleColumns 2000
    /\ Cell c = CustomCell render
    /\ render (sampleCell 0)
       = Ok (Div [("role", "cell")] ["cell"]
               [TagList "tagList" ["prod"; "prod"] SelectTag])
    /\ render (sampleCell 2)
       = Ok (Div [("role", "cell")] ["cell"] [TagList "tagList" [] SelectTag]).
Proof.
  assert (Hin : "column-tags" ∈ columnIds (sampleColumns 2000)) by in_ids.
  apply list_elem_of_fmap in Hin as (c & Hid & Hc). symmetry in Hid.
  destruct (plan_tags sampleSettings samplePanels sampleResponse 2000
              (Some sampleSelection) (Some ToggleSelection) sampleStyles
              SelectTag (Some ChangeDatasource) c Hc Hid) as (w & Hcol).
  assert (Hcell : Cell c = Cell (makeTagsColumn (Access.tags sampleAccess) w
                                   "tagList" SelectTag))
    by (rewrite Hcol; reflexivity).
  cbn [Cell makeTagsColumn] in Hcell.
  eexists c, _. split; [exact Hc|]. split; [exact Hcell|]. split.
  - apply (tags_cell_passes_list sampleSettings samplePanels sampleResponse
             2000 (Some sampleSelection) (Some ToggleSelection) sampleStyles
             SelectTag (Some ChangeDatasource) c _ _ (sampleCell 0)
             ["prod"; "prod"] Hc Hid Hcell eq_refl eq_refl).
  - apply (tags_cell_passes_list sampleSettings samplePanels sampleResponse
             2000 (Some sampleSelection) (Some ToggleSelection) sampleStyles
             SelectTag (Some ChangeDatasource) c _ _ (sampleCell 2)
             [] Hc Hid Hcell eq_refl eq_refl).
Defined.

(** X12 on the sample frame: "a/b" gives two items, the row without
    location one. *)
Lemma location_cell_item_count_witness :
  exists c render className items className' items',
    c ∈ sampleColumns 2000
    /\ Cell c = CustomCell render
    /\ render (sampleCell 0) = Ok (Div (cellProps (sampleCell 0)) className items)
    /\ length items = 2%nat
    /\ render (sampleCell 2) = Ok (Div (cellProps (sampleCell 2)) className' items')
    /\ length items' = 1%nat.
Proof.
  assert (Hin : "column-location" ∈ columnIds (sampleColumns 2000)) by in_ids.
  apply list_elem_of_fmap in Hin as (c & Hid & Hc). symmetry in Hid.
  destruct (plan_location sampleSettings samplePanels sampleResponse 2000
              (Some sampleSelection) (Some ToggleSelection) sampleStyles
              SelectTag (Some ChangeDatasource) c Hc Hid)
    as (info & _ & Hcell & _).
  destruct (location_cell_item_count sampleSettings samplePanels sampleResponse
              2000 (Some sampleSelection) (Some ToggleSelection) sampleStyles
              SelectTag (Some ChangeDatasource) c _ (sampleCell 0) Hc Hid Hcell)
    as (cls & items & Hrender & Hlen).
  destruct (location_cell_item_count sampleSettings samplePanels sampleResponse
              2000 (Some sampleSelection) (Some ToggleSelection) sampleStyles
              SelectTag (Some ChangeDatasource) c _ (sampleCell 2) Hc Hid Hcell)
    as (cls' & items' & Hrender' & Hlen').
  eexists c, _, cls, items, cls', items'.
  split; [exact Hc|]. split; [exact Hcell|].
  split; [exact Hrender|]. split; [exact Hlen|].
  split; [exact Hrender'|exact Hlen'].
Defined.

(** X13 on the sample frame: the name cell of the first row. *)
Lemma passive_cells_have_no_handlers_witness :
  exists c render node,
    c ∈ sampleColumns 2000
    /\ Cell c = CustomCell render
    /\ render (sampleCell 0) = Ok node
    /\ node = Anchor None [("role", "cell")] (Some "/d/u1")
                ["cell"; "cellWrapper"]
                [Text "Home"]
    /\ handlers node = [].
Proof.
  assert (Hin : "column-name" ∈ columnIds (sampleColumns 2000)) by in_ids.
  apply list_elem_of_fmap in Hin as (c & Hid & Hc). symmetry in Hid.
  destruct (plan_name sampleSettings samplePanels sampleResponse 2000
              (Some sampleSelection) (Some ToggleSelection) sampleStyles
              SelectTag (Some ChangeDatasource) c Hc Hid) as (Hcell & _).
  eexists c, _, _. split; [exact Hc|]. split; [exact Hcell|].
  split; [reflexivity|]. split; [reflexivity|].
  destruct (passive_cells_have_no_handlers sampleSettings samplePanels
              sampleResponse 2000 (Some sampleSelection) (Some ToggleSelection)
              sampleStyles SelectTag (Some ChangeDatasource) c
              (Anchor None [("role", "cell")] (Some "/d/u1")
                 ["cell"; "cellWrapper"]
                 [Text "Home"]) Hc) as [Hpassive _].
  apply (Hpassive (or_introl Hid) _ (sampleCell 0) Hcell). reflexivity.
Defined.

(** ** Where the floors stop binding, and the keys of location items *)

Section Thresholds.

Context {Eff : Type}.
Variable getInstanceSettings : string -> option DataSourceInstanceSettings.
Variable panels : gmap string PanelPluginMeta.
Variable response : QueryResponse.
Variable availableWidth : Q.
Variable selection : option SelectionChecker.
Variable selectionToggle : option (@SelectionToggle Eff).
Variable styles : Styles.
Variable onTagSelected : string -> Eff.
Variable onDatasourceChange : option (option string -> Eff).

Abbreviation plan :=
  (generateColumns getInstanceSettings panels response availableWidth
     selection selectionToggle styles onTagSelected onDatasourceChange).

(** X14: the name column sits on its floor of 300 as long as the budget
    after the checkbox step is at most 1500 and takes a fifth of it from
    there on; the location column sits on its floor of 200 as long as the
    budget left at its step is at most 500 and takes that budget less 300
    from there on. *)
Theorem plan_floor_thresholds (c : TableColumn Eff) :
  c ∈ plan ->
  let afterCheckbox := afterSelection availableWidth selection selectionToggle in
  let remaining :=
    remainingAtLocation availableWidth selection selectionToggle
      (Access.ds_uid (view_fields response)) onDatasourceChange in
  (id c = "column-name" ->
     ((afterCheckbox <= 1500)%Q -> (width c == 300)%Q)
     /\ ((1500 <= afterCheckbox)%Q -> (width c == afterCheckbox * 0.2)%Q))
  /\ (id c = "column-location" ->
        ((remaining <= 500)%Q -> (width c == 200)%Q)
        /\ ((500 <= remaining)%Q -> (width c == remaining - 300)%Q)).
Proof.
  intros Hc. cbv zeta. split; intros Hid; revert Hc;
    plan_cases response selection selectionToggle onDatasourceChange;
    intros Hc; pick_column Hc Hid; width_unfold;
    (split; intros Hrem; qmax_elim; lra).
Qed.

(** X15: the items of a location cell are keyed by their segments, in
    order; so the keys are pairwise distinct exactly when no segment
    occurs twice in the row's location. *)
Theorem location_items_keyed_by_segment
    (c : TableColumn Eff) (render : TableCellProps -> Result (Node Eff))
    (p : TableCellProps) :
  c ∈ plan -> id c = "column-location" -> Cell c = CustomCell render ->
  let segments :=
    split "/" (nullish (valuesGetOpt (Access.location (view_fields response))
                          (row_index p)) "") in
  exists className items,
    render p = Ok (Div (cellProps p) className items)
    /\ map keyOf items = map (fun s => Some (KeyString s)) segments
    /\ (NoDup (map keyOf items) <-> NoDup segments).
Proof.
  intros Hc Hid Hcell segments.
  destruct (plan_location _ _ _ _ _ _ _ _ _ c Hc Hid) as (info & _ & Hcell' & _).
  rewrite Hcell' in Hcell. injection Hcell as <-.
  unfold locationCell. fold segments. eexists _, _. split; [reflexivity|].
  assert (Hkeys : map keyOf (map (locationItem_render (Eff:=Eff) info styles) segments)
                  = map (fun s => Some (KeyString s)) segments).
  { rewrite map_map. apply map_ext. intros s. unfold locationItem_render.
    destruct (getProperty info s); reflexivity. }
  split; [exact Hkeys|].
  rewrite Hkeys. split.
  - apply NoDup_fmap_1.
  - apply NoDup_fmap_2. intros s t Heq. congruence.
Qed.

End Thresholds.

(** X14 on the sample call: at 2000 pixels the name column is past its
    floor and takes a fifth of the 1970 pixels left by the checkbox. *)
Lemma plan_floor_thresholds_witness :
  exists c,
    c ∈ sampleColumns 2000 /\ id c = "column-name" /\ (width c == 394)%Q.
Proof.
  assert (Hin : "column-name" ∈ columnIds (sampleColumns 2000)) by in_ids.
  apply list_elem_of_fmap in Hin as (c & Hid & Hc). symmetry in Hid.
  exists c. split; [exact Hc|]. split; [exact Hid|].
  destruct (plan_floor_thresholds sampleSettings samplePanels sampleResponse
              2000 (Some sampleSelection) (Some ToggleSelection) sampleStyles
              SelectTag (Some ChangeDatasource) c Hc) as [Hname _].
  destruct (Hname Hid) as [_ Hshare].
  rewrite Hshare; [reflexivity | discriminate].
Defined.

(** X15 on the sample frame: the keys of the row whose location is "a/b"
    are "a" and "b". *)
Lemma location_items_keyed_by_segment_witness :
  exists c render className items,
    c ∈ sampleColumns 2000
    /\ Cell c = CustomCell render
    /\ render (sampleCell 0) = Ok (Div (cellProps (sampleCell 0)) className items)
    /\ map keyOf items = [Some (KeyString "a"); Some (KeyString "b")]
    /\ NoDup (map keyOf items).
Proof.
  assert (Hin : "column-location" ∈ columnIds (sampleColumns 2000)) by in_ids.
  apply list_elem_of_fmap in Hin as (c & Hid & Hc). symmetry in Hid.
  destruct (plan_location sampleSettings samplePanels sampleResponse 2000
              (Some sampleSelection) (Some ToggleSelection) sampleStyles
              SelectTag (Some ChangeDatasource) c Hc Hid)
    as (info & _ & Hcell & _).
  destruct (location_items_keyed_by_segment sampleSettings samplePanels
              sampleResponse 2000 (Some sampleSelection) (Some ToggleSelection)
              sampleStyles SelectTag (Some ChangeDatasource)
              c _ (sampleCell 0) Hc Hid Hcell)
    as (cls & items & Hrender & Hkeys & Hnodup).
  eexists c, _, cls, items.
  split; [exact Hc|]. split; [exact Hcell|]. split; [exact Hrender|].
  split; [exact Hkeys|].
  apply Hnodup. apply (bool_decide_unpack _). vm_compute. exact I.
Defined.
